(** * Draft snap commands and the snap keyboard handler

    A shallow embedding of [src/Mod/Draft/draftguitools/gui_snaps.py]:
    the GUI command classes that toggle the snapping modes, and the
    module-level [keyPressEvent] that drives numeric distance entry on an
    external snap tracker.

    Host objects (the Qt event, the console, the snapper, the tracker and
    the working plane) are not part of the module.  Their data is kept
    abstract in the class [Host], the tracker's methods in the class
    [SnapTracker]; the handler is written in a state monad over the tracker
    object, the event's accepted flag and the sequence of effects the
    handler performs. *)

From Stdlib Require Import ZArith NArith Lia Ascii String.
From stdpp Require Import base strings list gmap.

Local Open Scope Z_scope.

(** ** Python text values *)

(** A Python [str] is a sequence of Unicode code points. *)
Definition pystr : Type := list N.

Definition pystr_of_string (s : string) : pystr :=
  Ascii.N_of_ascii <$> String.list_ascii_of_string s.

(** [Py_UNICODE_ISSPACE]: the code points [str.strip()] removes. *)
Definition Py_UNICODE_ISSPACE (c : N) : bool :=
  ((0x09 <=? c) && (c <=? 0x0D) || (0x1C <=? c) && (c <=? 0x1F)
   || (c =? 0x20) || (c =? 0x85) || (c =? 0xA0) || (c =? 0x1680)
   || (0x2000 <=? c) && (c <=? 0x200A) || (c =? 0x2028) || (c =? 0x2029)
   || (c =? 0x202F) || (c =? 0x205F) || (c =? 0x3000))%N.

Fixpoint lstrip (s : pystr) : pystr :=
  match s with
  | [] => []
  | c :: r => if Py_UNICODE_ISSPACE c then lstrip r else s
  end.

Definition rstrip (s : pystr) : pystr := rev (lstrip (rev s)).

(** [s.strip()] *)
Definition strip (s : pystr) : pystr := rstrip (lstrip s).

(** [s[:-1]] *)
Definition drop_last (s : pystr) : pystr := take (length s - 1)%nat s.

(** [s == ""] *)
Definition is_empty (s : pystr) : bool :=
  match s with [] => true | _ => false end.

(** An attribute looked up with [hasattr] and compared with [None]: it is
    missing, holds [None], or holds an object. *)
Inductive Attr (A : Type) :=
| AttrMissing
| AttrNone
| AttrObj (a : A).
Arguments AttrMissing {A}.
Arguments AttrNone {A}.
Arguments AttrObj {A} a.

(** ** Key codes of the [Qt.Key] enumeration used by the handler *)

Definition Key_0 : Z := 0x30.
Definition Key_9 : Z := 0x39.
Definition Key_Q : Z := 0x51.
Definition Key_Comma : Z := 0x2c.
Definition Key_Period : Z := 0x2e.
Definition Key_Escape : Z := 0x01000000.
Definition Key_Backspace : Z := 0x01000003.
Definition Key_Return : Z := 0x01000004.
Definition Key_Enter : Z := 0x01000005.
Definition Key_Delete : Z := 0x01000007.

(** ** Host data *)

(** Types and pure operations of the host application the module relies
    on: vectors with their truth value and subtraction, the working plane
    with its local rotation, the value [commitInput] hands back, and the
    Unicode digit property behind [str.isdigit]. *)
Class Host := {
  Vector : Type;
  WorkingPlane : Type;
  Rotation : Type;
  Target : Type;
  Internals : Type;
  Vector_bool : Vector → bool;
  Vector_sub : Vector → Vector → Vector;
  get_local_rotation : WorkingPlane → Rotation;
  multVec : Rotation → Vector → Vector;
  Py_UNICODE_ISDIGIT : N → bool
}.

(** [s.isdigit()]: non-empty and every code point is a digit. *)
Definition isdigit `{Host} (s : pystr) : bool :=
  negb (is_empty s) && forallb Py_UNICODE_ISDIGIT s.

(** The attributes of the tracker object the handler reads or assigns;
    whatever else the tracker keeps is in [internals]. *)
Record Tracker `{Host} := mkTracker {
  holdPoint : option Vector;
  inputDistance : option pystr;
  locked_dir_vector : option Vector;
  internals : Internals
}.
Arguments mkTracker {_} _ _ _ _.
Arguments holdPoint {_} _.
Arguments inputDistance {_} _.
Arguments locked_dir_vector {_} _.
Arguments internals {_} _.

(** The methods of the tracker the handler calls, as transformers of the
    tracker object. *)
Class SnapTracker `{Host} := {
  setHoldPoint : Vector → Tracker → Tracker;
  clearHoldPoint : Tracker → Tracker;
  processNumericInput : pystr → Tracker → Tracker;
  updateTracking : Tracker → Tracker;
  commitInput : Tracker → option Target * Tracker;
  _get_wp : Tracker → WorkingPlane * Tracker;
  get_orthogonal_direction : Vector → Tracker → option Vector * Tracker
}.

(** Truth value of an attribute that holds [None] or a vector. *)
Definition truthy_vec `{Host} (o : option Vector) : bool :=
  match o with
  | None => false
  | Some v => Vector_bool v
  end.

(** Truth value of an attribute that holds [None] or a string. *)
Definition truthy_str (o : option pystr) : bool :=
  match o with
  | None => false
  | Some s => negb (is_empty s)
  end.

(** ** Effects of the handler *)

(** Pieces of a formatted console message: literal text, with its escape
    sequences as they are written in the source, and the values an
    f-string or [format] inserts. *)
Inductive Frag `{Host} :=
| Lit (s : string)
| FmtVector (v : Vector)
| FmtStr (s : pystr)
| FmtOptStr (o : option pystr)
| FmtTarget (x : Target).

(** A method call on [self.tracker]. *)
Inductive TrackerCall `{Host} :=
| Call_setHoldPoint (p : Vector)
| Call_clearHoldPoint
| Call_processNumericInput (s : pystr)
| Call_updateTracking
| Call_commitInput
| Call_get_wp
| Call_get_orthogonal_direction (v : Vector).

(** What the handler does, step by step: console output, [event.accept()],
    calls and assignments on the tracker, and the hand-over to the default
    handler [super().keyPressEvent(event)]. *)
Inductive Effect `{Host} :=
| PrintError (msg : list Frag)
| PrintMessage (msg : list Frag)
| Accept
| Call (c : TrackerCall)
| Assign_inputDistance (s : pystr)
| Assign_locked_dir_vector (v : option Vector)
| Super_keyPressEvent.

Definition is_error `{Host} (e : Effect) : bool :=
  match e with PrintError _ => true | _ => false end.

(** The tracker method calls of a trace, in order. *)
Definition tracker_calls `{Host} (tr : list Effect) : list TrackerCall :=
  omap (λ e, match e with Call c => Some c | _ => None end) tr.

(** ** The handler monad *)

(** The state the handler works on: the tracker object, the event's
    accepted flag, and the effects so far. *)
Record HState `{Host} := mkHState {
  st_tracker : Tracker;
  st_accepted : bool;
  st_trace : list Effect
}.
Arguments mkHState {_} _ _ _.
Arguments st_tracker {_} _.
Arguments st_accepted {_} _.
Arguments st_trace {_} _.

Definition M `{Host} (A : Type) : Type := HState → A * HState.

#[global] Instance M_ret `{Host} : MRet M := λ A a s, (a, s).
#[global] Instance M_bind `{Host} : MBind M :=
  λ A B f m s, let '(a, s') := m s in f a s'.

Section Primitives.
Context {host : Host} {ops : SnapTracker}.

Definition emit (e : Effect) : M unit :=
  λ s, (tt, mkHState (st_tracker s) (st_accepted s) (st_trace s ++ [e])).

Definition on_tracker {A} (f : Tracker → A * Tracker) : M A :=
  λ s, let '(a, t) := f (st_tracker s) in
       (a, mkHState t (st_accepted s) (st_trace s)).

(** Reading an attribute of [self.tracker]. *)
Definition attr {A} (f : Tracker → A) : M A :=
  λ s, (f (st_tracker s), s).

(** [event.accept()] *)
Definition accept : M unit :=
  λ s, (tt, mkHState (st_tracker s) true (st_trace s ++ [Accept])).

Definition call_setHoldPoint (p : Vector) : M unit :=
  emit (Call (Call_setHoldPoint p));;
  on_tracker (λ t, (tt, setHoldPoint p t)).

Definition call_clearHoldPoint : M unit :=
  emit (Call Call_clearHoldPoint);;
  on_tracker (λ t, (tt, clearHoldPoint t)).

Definition call_processNumericInput (s : pystr) : M unit :=
  emit (Call (Call_processNumericInput s));;
  on_tracker (λ t, (tt, processNumericInput s t)).

Definition call_updateTracking : M unit :=
  emit (Call Call_updateTracking);;
  on_tracker (λ t, (tt, updateTracking t)).

Definition call_commitInput : M (option Target) :=
  emit (Call Call_commitInput);;
  on_tracker commitInput.

Definition call_get_wp : M WorkingPlane :=
  emit (Call Call_get_wp);;
  on_tracker _get_wp.

Definition call_get_orthogonal_direction (v : Vector) : M (option Vector) :=
  emit (Call (Call_get_orthogonal_direction v));;
  on_tracker (get_orthogonal_direction v).

(** [self.tracker.inputDistance = s] *)
Definition assign_inputDistance (s : pystr) : M unit :=
  emit (Assign_inputDistance s);;
  on_tracker (λ t, (tt, mkTracker (holdPoint t) (Some s)
                                  (locked_dir_vector t) (internals t))).

(** [self.tracker.locked_dir_vector = v] *)
Definition assign_locked_dir_vector (v : option Vector) : M unit :=
  emit (Assign_locked_dir_vector v);;
  on_tracker (λ t, (tt, mkTracker (holdPoint t) (inputDistance t)
                                  v (internals t))).
End Primitives.

(** ** The keyboard handler *)

(** The [tracker] attribute of the object the handler is bound to: absent,
    [None], or a tracker object. *)
Definition TrackerAttr `{Host} : Type := Attr Tracker.

(** [self]: the attributes of the receiver the handler uses. *)
Record Receiver `{Host} := mkReceiver {
  tracker : TrackerAttr;
  currentSnapPoint : option Vector
}.
Arguments mkReceiver {_} _ _.
Arguments tracker {_} _.
Arguments currentSnapPoint {_} _.

(** The key event: [event.key()], [event.text()] and the accepted flag. *)
Record QKeyEvent := mkQKeyEvent {
  key : Z;
  text : pystr;
  isAccepted : bool
}.

(** What a call of the handler leaves behind: the receiver's tracker
    attribute, the event's accepted flag, and the effects performed. *)
Record Outcome `{Host} := mkOutcome {
  out_tracker : TrackerAttr;
  out_accepted : bool;
  out_trace : list Effect
}.
Arguments mkOutcome {_} _ _ _.
Arguments out_tracker {_} _.
Arguments out_accepted {_} _.
Arguments out_trace {_} _.

Section Handler.
Context {host : Host} {ops : SnapTracker}.

(** Lines 337-343: [Qt.Key_Q]. *)
Definition on_Q (csp : option Vector) : M unit :=
  match csp with
  | Some p =>
      call_setHoldPoint p;;
      emit (PrintMessage [Lit "Hold point set to: "; FmtVector p; Lit "\n"])
  | None => mret tt
  end;;
  accept.

(** Lines 345-350: [Qt.Key_Escape]. *)
Definition on_Escape : M unit :=
  call_clearHoldPoint;;
  emit (PrintMessage [Lit "Hold point cleared.\n"]);;
  accept.

(** Lines 367-371: the direction lock, after the first digit went to the
    tracker. *)
Definition lock_direction (csp : option Vector) : M unit :=
  hp ← attr holdPoint;
  match hp, csp with
  | Some h, Some p =>
      if Vector_bool h && Vector_bool p then
        let direction := Vector_sub p h in
        wp ← call_get_wp;
        let direction_local := multVec (get_local_rotation wp) direction in
        v ← call_get_orthogonal_direction direction_local;
        assign_locked_dir_vector v
      else mret tt
  | _, _ => mret tt
  end.

(** Lines 352-376: [Qt.Key_0 <= key <= Qt.Key_9]. *)
Definition on_digit (csp : option Vector) (digit : pystr) : M unit :=
  hp ← attr holdPoint;
  if negb (truthy_vec hp) then accept
  else if negb (isdigit digit) then
    emit (PrintError [Lit "Invalid numeric input ignored: ";
                      FmtStr digit; Lit "\n"]);;
    accept
  else
    d ← attr inputDistance;
    match d with
    | None => call_processNumericInput digit;; lock_direction csp
    | Some _ => call_processNumericInput digit
    end;;
    accept.

(** Lines 378-384: [Qt.Key_Backspace], [Qt.Key_Delete]. *)
Definition on_erase : M unit :=
  d ← attr inputDistance;
  match d with
  | Some s =>
      if negb (is_empty s) then
        assign_inputDistance (drop_last s);;
        call_updateTracking;;
        d' ← attr inputDistance;
        emit (PrintMessage [Lit "Numeric input backspaced. Current input: ";
                            FmtOptStr d'; Lit "\n"])
      else mret tt
  | None => mret tt
  end;;
  accept.

(** Lines 386-390: [Qt.Key_Period], [Qt.Key_Comma]. *)
Definition on_separator : M unit :=
  call_processNumericInput (pystr_of_string ".");;
  accept.

(** Lines 392-405: [Qt.Key_Return], [Qt.Key_Enter]. *)
Definition on_commit : M unit :=
  d ← attr inputDistance;
  if negb (truthy_str d) || is_empty (strip (default [] d)) then
    emit (PrintError [Lit "No valid numeric input. Press Escape to reset or enter a valid number.\n"]);;
    accept
  else
    target ← call_commitInput;
    match target with
    | Some x =>
        emit (PrintMessage [Lit "Geometry created at: "; FmtTarget x;
                            Lit "\n"])
    | None => mret tt
    end;;
    accept.

(** Lines 337-408: the [if]/[elif] chain on the key, once [self.tracker]
    is known to be an object. *)
Definition dispatch (csp : option Vector) (event : QKeyEvent) : M unit :=
  let k := key event in
  if k =? Key_Q then on_Q csp
  else if k =? Key_Escape then on_Escape
  else if (Key_0 <=? k) && (k <=? Key_9) then on_digit csp (text event)
  else if (k =? Key_Backspace) || (k =? Key_Delete) then on_erase
  else if (k =? Key_Period) || (k =? Key_Comma) then on_separator
  else if (k =? Key_Return) || (k =? Key_Enter) then on_commit
  else emit Super_keyPressEvent.

(** Running a handler computation on a tracker object. *)
Definition run (m : M unit) (t : Tracker) (accepted : bool) : Outcome :=
  let s := snd (m (mkHState t accepted [])) in
  mkOutcome (AttrObj (st_tracker s)) (st_accepted s) (st_trace s).

(** Lines 328-408: [keyPressEvent(self, event)]. *)
Definition keyPressEvent (self : Receiver) (event : QKeyEvent) : Outcome :=
  match tracker self with
  | AttrObj t =>
      run (dispatch (currentSnapPoint self) event) t (isAccepted event)
  | absent =>
      mkOutcome absent true
        [PrintError [Lit "Error: Tracker is missing. Cannot process input.\n"];
         Accept]
  end.
End Handler.

(** ** The snap commands *)

Local Open Scope string_scope.

(** Values stored in a resource dictionary. *)
Inductive PyVal :=
| VStr (s : string)
| VBool (b : bool).

(** The command classes of the module, in the order they are defined. *)
Inductive SnapCommand :=
| Draft_Snap_Lock
| Draft_Snap_Midpoint
| Draft_Snap_Perpendicular
| Draft_Snap_Grid
| Draft_Snap_Intersection
| Draft_Snap_Parallel
| Draft_Snap_Endpoint
| Draft_Snap_Angle
| Draft_Snap_Center
| Draft_Snap_Extension
| Draft_Snap_Near
| Draft_Snap_Ortho
| Draft_Snap_Special
| Draft_Snap_Dimensions
| Draft_Snap_WorkingPlane
| ShowSnapBar.

(** [self.__class__.__name__] *)
Definition class_name (c : SnapCommand) : string :=
  match c with
  | Draft_Snap_Lock => "Draft_Snap_Lock"
  | Draft_Snap_Midpoint => "Draft_Snap_Midpoint"
  | Draft_Snap_Perpendicular => "Draft_Snap_Perpendicular"
  | Draft_Snap_Grid => "Draft_Snap_Grid"
  | Draft_Snap_Intersection => "Draft_Snap_Intersection"
  | Draft_Snap_Parallel => "Draft_Snap_Parallel"
  | Draft_Snap_Endpoint => "Draft_Snap_Endpoint"
  | Draft_Snap_Angle => "Draft_Snap_Angle"
  | Draft_Snap_Center => "Draft_Snap_Center"
  | Draft_Snap_Extension => "Draft_Snap_Extension"
  | Draft_Snap_Near => "Draft_Snap_Near"
  | Draft_Snap_Ortho => "Draft_Snap_Ortho"
  | Draft_Snap_Special => "Draft_Snap_Special"
  | Draft_Snap_Dimensions => "Draft_Snap_Dimensions"
  | Draft_Snap_WorkingPlane => "Draft_Snap_WorkingPlane"
  | ShowSnapBar => "ShowSnapBar"
  end.

(** [s[n:]] *)
Fixpoint string_from (n : nat) (s : string) : string :=
  match n, s with
  | O, _ => s
  | S n', String _ r => string_from n' r
  | S _, EmptyString => EmptyString
  end.

(** [self.__class__.__name__[11:]] *)
Definition snap_name (c : SnapCommand) : string :=
  string_from 11 (class_name c).

(** [QT_TRANSLATE_NOOP(context, text)] marks [text] for translation and
    returns it as it is. *)
Definition QT_TRANSLATE_NOOP (context text : string) : string := text.

(** The host snapping service [Gui.Snapper]: the list of active snaps,
    whether [snap_modes] is there and not [None], and its methods. *)
Class SnapperHost := {
  Snapper : Type;
  active_snaps : Snapper → list string;
  snap_modes_set : Snapper → bool;
  isEnabled : string → Snapper → bool;
  toggle_snap : string → bool → Snapper → Snapper
}.

(** The [Gui] module as the commands see it: the [Snapper] attribute, if
    there is one, and what was printed on the console. *)
Record GuiState `{SnapperHost} := mkGui {
  Gui_Snapper : option Snapper;
  console : list string
}.
Arguments mkGui {_} _ _.
Arguments Gui_Snapper {_} _.
Arguments console {_} _.

Section Commands.
Context {snp : SnapperHost}.

(** [bool(status)] of an integer. *)
Definition bool_of_status (status : Z) : bool := negb (status =? 0)%Z.

(** [Draft_Snap_Base.Activated], for a receiver of class [self].
    [Draft_Snap_Lock] and [ShowSnapBar] override it. *)
Definition Activated (self : SnapCommand) (status : Z) (g : GuiState)
  : GuiState :=
  match Gui_Snapper g with
  | Some sn =>
      mkGui (Some (toggle_snap (snap_name self) (bool_of_status status) sn))
            (console g)
  | None => g
  end.

(** [Draft_Snap_Base.IsActive] *)
Definition IsActive (g : GuiState) : bool :=
  match Gui_Snapper g with
  | Some sn => isEnabled "Lock" sn
  | None => false
  end.

(** [Draft_Snap_Base.isChecked] *)
Definition isChecked (self : SnapCommand) (g : GuiState) : bool :=
  match Gui_Snapper g with
  | Some sn => bool_decide (snap_name self ∈ active_snaps sn)
  | None => false
  end.

(** [Draft_Snap_Base.toggleSnapMode] *)
Definition toggleSnapMode (mode : string) (status : Z) (g : GuiState)
  : GuiState :=
  match Gui_Snapper g with
  | None =>
      mkGui None
        (console g ++
           ["Error: Gui.Snapper is missing. Cannot toggle snap mode.\n"])
  | Some sn =>
      if negb (snap_modes_set sn) then
        mkGui (Some sn)
          (console g ++
             ["Error: Gui.Snapper.snap_modes is missing. Cannot check snap state.\n"])
      else mkGui (Some (toggle_snap mode (bool_of_status status) sn)) (console g)
  end.

(** A dictionary display. *)
Definition dict (items : list (string * PyVal)) : gmap string PyVal :=
  list_to_map items.

(** [GetResources] of each command class. *)
Definition GetResources (self : SnapCommand) (g : GuiState)
  : gmap string PyVal :=
  match self with
  | Draft_Snap_Lock =>
      dict [("Pixmap", VStr "Draft_Snap_Lock");
            ("Accel", VStr "Shift+S");
            ("MenuText", VStr (QT_TRANSLATE_NOOP "Draft_Snap_Lock" "Snap lock"));
            ("ToolTip", VStr (QT_TRANSLATE_NOOP "Draft_Snap_Lock" "Enables or disables snapping globally."));
            ("CmdType", VStr "NoTransaction");
            ("Checkable", VBool (isChecked self g))]
  | Draft_Snap_Midpoint =>
      dict [("Pixmap", VStr "Draft_Snap_Midpoint");
            ("MenuText", VStr (QT_TRANSLATE_NOOP "Draft_Snap_Midpoint" "Snap midpoint"));
            ("ToolTip", VStr (QT_TRANSLATE_NOOP "Draft_Snap_Midpoint" "Snaps to the midpoint of edges."));
            ("CmdType", VStr "NoTransaction");
            ("Checkable", VBool (isChecked self g))]
  | Draft_Snap_Perpendicular =>
      dict [("Pixmap", VStr "Draft_Snap_Perpendicular");
            ("MenuText", VStr (QT_TRANSLATE_NOOP "Draft_Snap_Perpendicular" "Snap perpendicular"));
            ("ToolTip", VStr (QT_TRANSLATE_NOOP "Draft_Snap_Perpendicular" "Snaps to the perpendicular points on faces and edges."));
            ("CmdType", VStr "NoTransaction");
            ("Checkable", VBool (isChecked self g))]
  | Draft_Snap_Grid =>
      dict [("Pixmap", VStr "Draft_Snap_Grid");
            ("MenuText", VStr (QT_TRANSLATE_NOOP "Draft_Snap_Grid" "Snap grid"));
            ("ToolTip", VStr (QT_TRANSLATE_NOOP "Draft_Snap_Grid" "Snaps to the intersections of grid lines."));
            ("CmdType", VStr "NoTransaction");
            ("Checkable", VBool (isChecked self g))]
  | Draft_Snap_Intersection =>
      dict [("Pixmap", VStr "Draft_Snap_Intersection");
            ("MenuText", VStr (QT_TRANSLATE_NOOP "Draft_Snap_Intersection" "Snap intersection"));
            ("ToolTip", VStr (QT_TRANSLATE_NOOP "Draft_Snap_Intersection" "Snaps to the intersection of two edges."));
            ("CmdType", VStr "NoTransaction");
            ("Checkable", VBool (isChecked self g))]
  | Draft_Snap_Parallel =>
      dict [("Pixmap", VStr "Draft_Snap_Parallel");
            ("MenuText", VStr (QT_TRANSLATE_NOOP "Draft_Snap_Parallel" "Snap parallel"));
            ("ToolTip", VStr (QT_TRANSLATE_NOOP "Draft_Snap_Parallel" "Snaps to an imaginary line parallel to straight edges."));
            ("CmdType", VStr "NoTransaction");
            ("Checkable", VBool (isChecked self g))]
  | Draft_Snap_Endpoint =>
      dict [("Pixmap", VStr "Draft_Snap_Endpoint");
            ("MenuText", VStr (QT_TRANSLATE_NOOP "Draft_Snap_Endpoint" "Snap endpoint"));
            ("ToolTip", VStr (QT_TRANSLATE_NOOP "Draft_Snap_Endpoint" "Snaps to the endpoints of edges."));
            ("CmdType", VStr "NoTransaction");
            ("Checkable", VBool (isChecked self g))]
  | Draft_Snap_Angle =>
      dict [("Pixmap", VStr "Draft_Snap_Angle");
            ("MenuText", VStr (QT_TRANSLATE_NOOP "Draft_Snap_Angle" "Snap angle"));
            ("ToolTip", VStr (QT_TRANSLATE_NOOP "Draft_Snap_Angle" "Snaps to the special cardinal points on circular edges, at multiples of 30° and 45°."));
            ("CmdType", VStr "NoTransaction");
            ("Checkable", VBool (isChecked self g))]
  | Draft_Snap_Center =>
      dict [("Pixmap", VStr "Draft_Snap_Center");
            ("MenuText", VStr (QT_TRANSLATE_NOOP "Draft_Snap_Center" "Snap center"));
            ("ToolTip", VStr (QT_TRANSLATE_NOOP "Draft_Snap_Center" "Snaps to the center point of faces and circular edges, and to the Placement point of Working Plane Proxies and Building Parts."));
            ("CmdType", VStr "NoTransaction");
            ("Checkable", VBool (isChecked self g))]
  | Draft_Snap_Extension =>
      dict [("Pixmap", VStr "Draft_Snap_Extension");
            ("MenuText", VStr (QT_TRANSLATE_NOOP "Draft_Snap_Extension" "Snap extension"));
            ("ToolTip", VStr (QT_TRANSLATE_NOOP "Draft_Snap_Extension" "Snaps to an imaginary line that extends beyond the endpoints of straight edges."));
            ("CmdType", VStr "NoTransaction");
            ("Checkable", VBool (isChecked self g))]
  | Draft_Snap_Near =>
      dict [("Pixmap", VStr "Draft_Snap_Near");
            ("MenuText", VStr (QT_TRANSLATE_NOOP "Draft_Snap_Near" "Snap near"));
            ("ToolTip", VStr (QT_TRANSLATE_NOOP "Draft_Snap_Near" "Snaps to the nearest point on faces and edges."));
            ("CmdType", VStr "NoTransaction");
            ("Checkable", VBool (isChecked self g))]
  | Draft_Snap_Ortho =>
      dict [("Pixmap", VStr "Draft_Snap_Ortho");
            ("MenuText", VStr (QT_TRANSLATE_NOOP "Draft_Snap_Ortho" "Snap ortho"));
            ("ToolTip", VStr (QT_TRANSLATE_NOOP "Draft_Snap_Ortho" "Snaps to imaginary lines that cross the previous point at multiples of 45°."));
            ("CmdType", VStr "NoTransaction");
            ("Checkable", VBool (isChecked self g))]
  | Draft_Snap_Special =>
      dict [("Pixmap", VStr "Draft_Snap_Special");
            ("MenuText", VStr (QT_TRANSLATE_NOOP "Draft_Snap_Special" "Snap special"));
            ("ToolTip", VStr (QT_TRANSLATE_NOOP "Draft_Snap_Special" "Snaps to special points defined by the object."));
            ("CmdType", VStr "NoTransaction");
            ("Checkable", VBool (isChecked self g))]
  | Draft_Snap_Dimensions =>
      dict [("Pixmap", VStr "Draft_Snap_Dimensions");
            ("MenuText", VStr (QT_TRANSLATE_NOOP "Draft_Snap_Dimensions" "Snap dimensions"));
            ("ToolTip", VStr (QT_TRANSLATE_NOOP "Draft_Snap_Dimensions" "Shows temporary X and Y dimensions."));
            ("CmdType", VStr "NoTransaction");
            ("Checkable", VBool (isChecked self g))]
  | Draft_Snap_WorkingPlane =>
      dict [("Pixmap", VStr "Draft_Snap_WorkingPlane");
            ("MenuText", VStr (QT_TRANSLATE_NOOP "Draft_Snap_WorkingPlane" "Snap working plane"));
            ("ToolTip", VStr (QT_TRANSLATE_NOOP "Draft_Snap_WorkingPlane" "Projects snap points onto the current working plane."));
            ("CmdType", VStr "NoTransaction");
            ("Checkable", VBool (isChecked self g))]
  | ShowSnapBar =>
      dict [("Pixmap", VStr "Draft_Snap");
            ("MenuText", VStr (QT_TRANSLATE_NOOP "Draft_ShowSnapBar" "Show snap toolbar"));
            ("ToolTip", VStr (QT_TRANSLATE_NOOP "Draft_ShowSnapBar" "Shows the snap toolbar if it is hidden."));
            ("CmdType", VStr "NoTransaction")]
  end.
End Commands.

(** The [Gui.addCommand] calls of the module, in order: the name a command
    is registered under and its class. *)
Definition registered_commands : list (string * SnapCommand) :=
  [("Draft_Snap_Lock", Draft_Snap_Lock);
   ("Draft_Snap_Midpoint", Draft_Snap_Midpoint);
   ("Draft_Snap_Perpendicular", Draft_Snap_Perpendicular);
   ("Draft_Snap_Grid", Draft_Snap_Grid);
   ("Draft_Snap_Intersection", Draft_Snap_Intersection);
   ("Draft_Snap_Parallel", Draft_Snap_Parallel);
   ("Draft_Snap_Endpoint", Draft_Snap_Endpoint);
   ("Draft_Snap_Angle", Draft_Snap_Angle);
   ("Draft_Snap_Center", Draft_Snap_Center);
   ("Draft_Snap_Extension", Draft_Snap_Extension);
   ("Draft_Snap_Near", Draft_Snap_Near);
   ("Draft_Snap_Ortho", Draft_Snap_Ortho);
   ("Draft_Snap_Special", Draft_Snap_Special);
   ("Draft_Snap_Dimensions", Draft_Snap_Dimensions);
   ("Draft_Snap_WorkingPlane", Draft_Snap_WorkingPlane);
   ("Draft_ShowSnapBar", ShowSnapBar)].

Local Open Scope list_scope.
Local Open Scope Z_scope.

(** ** Descriptions the handler and the commands are compared with *)

Section Descriptions.
Context {host : Host} {ops : SnapTracker}.
Implicit Types (t : Tracker) (csp : option Vector).

(** The first digit of an entry: the digit goes to the tracker, then the
    direction is locked if the tracker holds a point and there is a snap
    point. *)
Definition first_digit_outcome csp (digit : pystr) t : Outcome :=
  let t0 := processNumericInput digit t in
  let plain :=
    mkOutcome (AttrObj t0) true
      [Call (Call_processNumericInput digit); Accept] in
  match holdPoint t0, csp with
  | Some h, Some p =>
      if Vector_bool h && Vector_bool p then
        let '(wp, t1) := _get_wp t0 in
        let direction_local :=
          multVec (get_local_rotation wp) (Vector_sub p h) in
        let '(v, t2) := get_orthogonal_direction direction_local t1 in
        mkOutcome
          (AttrObj (mkTracker (holdPoint t2) (inputDistance t2) v
                              (internals t2)))
          true
          [Call (Call_processNumericInput digit);
           Call Call_get_wp;
           Call (Call_get_orthogonal_direction direction_local);
           Assign_locked_dir_vector v;
           Accept]
      else plain
  | _, _ => plain
  end.

(** The buffer, in the words of the specification: not empty and not
    only whitespace. *)
Definition has_input (d : option pystr) : bool :=
  match d with
  | Some s => negb (is_empty s) && negb (forallb Py_UNICODE_ISSPACE s)
  | None => false
  end.

End Descriptions.

Section ResourceKeys.
Context {snp : SnapperHost}.

(** A resource dictionary with every key the host registry can read:
    icon, accelerator, menu text, tooltip and checkable state. *)
Definition complete_resources (r : gmap string PyVal) : Prop :=
  is_Some (r !! "Pixmap") ∧ is_Some (r !! "Accel") ∧
  is_Some (r !! "MenuText") ∧ is_Some (r !! "ToolTip") ∧
  is_Some (r !! "Checkable").

(** The keys the command classes do provide: icon, menu text, tooltip
    and command type always; the checkable state for every class but
    [ShowSnapBar]; the accelerator for [Draft_Snap_Lock] only. *)
Definition provided_resources (g : GuiState) (c : SnapCommand) : Prop :=
  let r := GetResources c g in
  is_Some (r !! "Pixmap") ∧ is_Some (r !! "MenuText") ∧
  is_Some (r !! "ToolTip") ∧ r !! "CmdType" = Some (VStr "NoTransaction") ∧
  (c ≠ ShowSnapBar → r !! "Checkable" = Some (VBool (isChecked c g))) ∧
  (c = ShowSnapBar → r !! "Checkable" = None) ∧
  (c = Draft_Snap_Lock → r !! "Accel" = Some (VStr "Shift+S")) ∧
  (c ≠ Draft_Snap_Lock → r !! "Accel" = None).
End ResourceKeys.

(** ** A tracker to run the handler on *)

(** A small host and tracker against which the handler can be evaluated on
    concrete events: vectors are integer triples, every vector is true,
    the working plane is the global one, and the tracker appends what it
    is given to its buffer. *)
Module Sample.
Definition vec : Type := Z * Z * Z.

Definition vec_sub (a b : vec) : vec :=
  let '(ax, ay, az) := a in
  let '(bx, by_, bz) := b in
  (ax - bx, ay - by_, az - bz)%Z.

Definition ascii_digit (c : N) : bool := ((0x30 <=? c) && (c <=? 0x39))%N.

#[export] Instance host : Host := {|
  Vector := vec;
  WorkingPlane := unit;
  Rotation := unit;
  Target := vec;
  Internals := unit;
  Vector_bool := λ _, true;
  Vector_sub := vec_sub;
  get_local_rotation := λ _, tt;
  multVec := λ _ v, v;
  Py_UNICODE_ISDIGIT := ascii_digit
|}.

#[export] Instance snap_tracker : SnapTracker := {|
  setHoldPoint := λ p t,
    mkTracker (Some p) (inputDistance t) (locked_dir_vector t) (internals t);
  clearHoldPoint := λ t,
    mkTracker None (inputDistance t) (locked_dir_vector t) (internals t);
  processNumericInput := λ s t,
    mkTracker (holdPoint t) (Some (default [] (inputDistance t) ++ s))
              (locked_dir_vector t) (internals t);
  updateTracking := λ t, t;
  commitInput := λ t,
    (holdPoint t, mkTracker (holdPoint t) None None (internals t));
  _get_wp := λ t, (tt, t);
  get_orthogonal_direction := λ v t, (Some v, t)
|}.

#[export] Instance snapper : SnapperHost := {|
  Snapper := list string;
  active_snaps := λ sn, sn;
  snap_modes_set := λ _, true;
  isEnabled := λ name sn, bool_decide (name ∈ sn);
  toggle_snap := λ name status sn,
    if status then name :: sn else filter (λ x, x ≠ name) sn
|}.

(** No hold point, nothing typed. *)
Definition idle : Tracker := mkTracker None None None tt.

(** A hold point at the origin, nothing typed. *)
Definition held : Tracker := mkTracker (Some (0, 0, 0)%Z) None None tt.

(** A hold point at the origin and ["12"] typed. *)
Definition typing : Tracker :=
  mkTracker (Some (0, 0, 0)%Z) (Some (pystr_of_string "12")) None tt.

Definition press (k : Z) (txt : string) : QKeyEvent :=
  mkQKeyEvent k (pystr_of_string txt) false.
End Sample.

(** ** Successive events, and the lock command *)

(** The keys for which the [if]/[elif] chain of the handler has a branch. *)
Definition handled_key (k : Z) : bool :=
  (k =? Key_Q) || (k =? Key_Escape) || (Key_0 <=? k) && (k <=? Key_9)
  || (k =? Key_Backspace) || (k =? Key_Delete)
  || (k =? Key_Period) || (k =? Key_Comma)
  || (k =? Key_Return) || (k =? Key_Enter).

Section Successive.
Context {host : Host} {ops : SnapTracker}.

(** The receiver as one call of the handler leaves it: the tracker the
    call worked on, and the snap point, which the handler only reads. *)
Definition after (self : Receiver) (ev : QKeyEvent) : Receiver :=
  mkReceiver (out_tracker (keyPressEvent self ev)) (currentSnapPoint self).

(** The receiver after the handler was called on each event in turn. *)
Definition press_all (self : Receiver) (evs : list QKeyEvent) : Receiver :=
  foldl after self evs.
End Successive.

(** ** The paths through the handler *)

Section Paths.
Context {host : Host} {ops : SnapTracker}.

(** [KeyPath t csp ev out]: one path through [keyPressEvent], lines
    337-408, for a receiver whose tracker is the object [t] and whose
    snap point is [csp]; [out] is what the path leaves behind. *)
Inductive KeyPath (t : Tracker) (csp : option Vector) (ev : QKeyEvent)
  : Outcome → Prop :=
| Path_Q_set p :
    key ev = Key_Q → csp = Some p →
    KeyPath t csp ev
      (mkOutcome (AttrObj (setHoldPoint p t)) true
         [Call (Call_setHoldPoint p);
          PrintMessage [Lit "Hold point set to: "; FmtVector p; Lit "\n"];
          Accept])
| Path_Q_no_snap :
    key ev = Key_Q → csp = None →
    KeyPath t csp ev (mkOutcome (AttrObj t) true [Accept])
| Path_Escape :
    key ev = Key_Escape →
    KeyPath t csp ev
      (mkOutcome (AttrObj (clearHoldPoint t)) true
         [Call Call_clearHoldPoint;
          PrintMessage [Lit "Hold point cleared.\n"];
          Accept])
| Path_digit_no_hold :
    Key_0 ≤ key ev ≤ Key_9 → truthy_vec (holdPoint t) = false →
    KeyPath t csp ev (mkOutcome (AttrObj t) true [Accept])
| Path_digit_bad_text :
    Key_0 ≤ key ev ≤ Key_9 → truthy_vec (holdPoint t) = true →
    isdigit (text ev) = false →
    KeyPath t csp ev
      (mkOutcome (AttrObj t) true
         [PrintError [Lit "Invalid numeric input ignored: ";
                      FmtStr (text ev); Lit "\n"];
          Accept])
| Path_digit_first_locked h p wp t1 v t2 :
    Key_0 ≤ key ev ≤ Key_9 → truthy_vec (holdPoint t) = true →
    isdigit (text ev) = true → inputDistance t = None →
    holdPoint (processNumericInput (text ev) t) = Some h → csp = Some p →
    Vector_bool h && Vector_bool p = true →
    _get_wp (processNumericInput (text ev) t) = (wp, t1) →
    get_orthogonal_direction
      (multVec (get_local_rotation wp) (Vector_sub p h)) t1 = (v, t2) →
    KeyPath t csp ev
      (mkOutcome
         (AttrObj (mkTracker (holdPoint t2) (inputDistance t2) v
                             (internals t2)))
         true
         [Call (Call_processNumericInput (text ev));
          Call Call_get_wp;
          Call (Call_get_orthogonal_direction
                  (multVec (get_local_rotation wp) (Vector_sub p h)));
          Assign_locked_dir_vector v;
          Accept])
| Path_digit_first_plain :
    Key_0 ≤ key ev ≤ Key_9 → truthy_vec (holdPoint t) = true →
    isdigit (text ev) = true → inputDistance t = None →
    truthy_vec (holdPoint (processNumericInput (text ev) t))
      && truthy_vec csp = false →
    KeyPath t csp ev
      (mkOutcome (AttrObj (processNumericInput (text ev) t)) true
         [Call (Call_processNumericInput (text ev)); Accept])
| Path_digit_next d :
    Key_0 ≤ key ev ≤ Key_9 → truthy_vec (holdPoint t) = true →
    isdigit (text ev) = true → inputDistance t = Some d →
    KeyPath t csp ev
      (mkOutcome (AttrObj (processNumericInput (text ev) t)) true
         [Call (Call_processNumericInput (text ev)); Accept])
| Path_erase s c :
    key ev = Key_Backspace ∨ key ev = Key_Delete →
    inputDistance t = Some (s ++ [c]) →
    KeyPath t csp ev
      (let t' := updateTracking
                   (mkTracker (holdPoint t) (Some s) (locked_dir_vector t)
                              (internals t)) in
       mkOutcome (AttrObj t') true
         [Assign_inputDistance s;
          Call Call_updateTracking;
          PrintMessage [Lit "Numeric input backspaced. Current input: ";
                        FmtOptStr (inputDistance t'); Lit "\n"];
          Accept])
| Path_erase_nothing :
    key ev = Key_Backspace ∨ key ev = Key_Delete →
    truthy_str (inputDistance t) = false →
    KeyPath t csp ev (mkOutcome (AttrObj t) true [Accept])
| Path_separator :
    key ev = Key_Period ∨ key ev = Key_Comma →
    KeyPath t csp ev
      (mkOutcome (AttrObj (processNumericInput (pystr_of_string ".") t)) true
         [Call (Call_processNumericInput (pystr_of_string ".")); Accept])
| Path_commit_target x t' :
    key ev = Key_Return ∨ key ev = Key_Enter →
    has_input (inputDistance t) = true → commitInput t = (Some x, t') →
    KeyPath t csp ev
      (mkOutcome (AttrObj t') true
         [Call Call_commitInput;
          PrintMessage [Lit "Geometry created at: "; FmtTarget x; Lit "\n"];
          Accept])
| Path_commit_no_target t' :
    key ev = Key_Return ∨ key ev = Key_Enter →
    has_input (inputDistance t) = true → commitInput t = (None, t') →
    KeyPath t csp ev
      (mkOutcome (AttrObj t') true [Call Call_commitInput; Accept])
| Path_commit_refused :
    key ev = Key_Return ∨ key ev = Key_Enter →
    has_input (inputDistance t) = false →
    KeyPath t csp ev
      (mkOutcome (AttrObj t) true
         [PrintError [Lit "No valid numeric input. Press Escape to reset or enter a valid number.\n"];
          Accept])
| Path_other :
    handled_key (key ev) = false →
    KeyPath t csp ev
      (mkOutcome (AttrObj t) (isAccepted ev) [Super_keyPressEvent]).
End Paths.

(** The methods of the tracker that [Draft_Snap_Lock] calls. *)
Class TrackingMethods `{Host} := {
  start_tracking : Tracker → Tracker;
  stop_tracking : Tracker → Tracker;
  is_active : Tracker → bool
}.

Section LockCommand.
Context {host : Host} {trk : TrackingMethods} {snp : SnapperHost}.

(** Lines 92-99: [Draft_Snap_Lock.Activated], on the [Gui] module and the
    command's own tracker.  [True] and [False] are the integers 1 and 0. *)
Definition Draft_Snap_Lock_Activated (status : Z) (g : GuiState) (t : Tracker)
  : GuiState * Tracker :=
  let g1 := Activated Draft_Snap_Lock status g in
  if bool_of_status status then
    (toggleSnapMode "Lock" 1 g1, start_tracking t)
  else
    (toggleSnapMode "Lock" 0 g1, stop_tracking t).

(** Lines 101-102: [Draft_Snap_Lock.IsActive]. *)
Definition Draft_Snap_Lock_IsActive (t : Tracker) : bool := is_active t.
End LockCommand.

(** A tracker for the lock command in the sample host: tracking is on
    when the tracker's internal flag is set. *)
Module SampleLock.
#[export] Instance host : Host := {|
  Vector := Sample.vec;
  WorkingPlane := unit;
  Rotation := unit;
  Target := Sample.vec;
  Internals := bool;
  Vector_bool := λ _, true;
  Vector_sub := Sample.vec_sub;
  get_local_rotation := λ _, tt;
  multVec := λ _ v, v;
  Py_UNICODE_ISDIGIT := Sample.ascii_digit
|}.

#[export] Instance tracking : TrackingMethods := {|
  start_tracking := λ t,
    mkTracker (holdPoint t) (inputDistance t) (locked_dir_vector t) true;
  stop_tracking := λ t,
    mkTracker (holdPoint t) (inputDistance t) (locked_dir_vector t) false;
  is_active := λ t, internals t
|}.

(** A tracker that is not tracking. *)
Definition stopped : Tracker := mkTracker None None None false.
End SampleLock.

(** ** Properties of the text operations *)

Lemma lstrip_nil_iff (s : pystr) :
  lstrip s = [] ↔ forallb Py_UNICODE_ISSPACE s = true.
Proof.
  induction s as [|c r IH]; simpl; [done|].
  destruct (Py_UNICODE_ISSPACE c); simpl; [exact IH|].
  split; discriminate.
Qed.

Lemma lstrip_head (s : pystr) c r :
  lstrip s = c :: r → Py_UNICODE_ISSPACE c = false.
Proof.
  induction s as [|a s IH]; simpl; [discriminate|].
  destruct (Py_UNICODE_ISSPACE a) eqn:E; [exact IH|].
  intros [= <- _]. exact E.
Qed.

Lemma strip_nil_iff (s : pystr) :
  strip s = [] ↔ forallb Py_UNICODE_ISSPACE s = true.
Proof.
  unfold strip, rstrip. rewrite <- lstrip_nil_iff. split.
  - intros E.
    assert (E' : lstrip (rev (lstrip s)) = []).
    { rewrite <- (rev_involutive (lstrip (rev (lstrip s)))), E. done. }
    clear E. rename E' into E. apply lstrip_nil_iff in E.
    destruct (lstrip s) as [|c r] eqn:L; [done|].
    apply lstrip_head in L. rewrite forallb_forall in E.
    rewrite (E c) in L; [discriminate|].
    apply in_rev. rewrite rev_involutive. left. done.
  - intros ->. done.
Qed.

Lemma drop_last_snoc (s : pystr) c : drop_last (s ++ [c]) = s.
Proof.
  unfold drop_last. rewrite length_app. simpl.
  replace (length s + 1 - 1)%nat with (length s) by lia.
  by rewrite take_app_length.
Qed.

Lemma drop_last_last (s : pystr) :
  s ≠ [] → ∃ c, s = drop_last s ++ [c].
Proof.
  destruct (rev s) as [|c r] eqn:E.
  - rewrite <- (rev_involutive s), E. done.
  - intros _. exists c.
    rewrite <- (rev_involutive s), E. simpl.
    by rewrite drop_last_snoc.
Qed.

(** ** Which branch a key takes *)

Ltac key_tests :=
  unfold dispatch, Key_Q, Key_Escape, Key_0, Key_9, Key_Backspace,
    Key_Delete, Key_Period, Key_Comma, Key_Return, Key_Enter in *;
  cbv zeta;
  repeat match goal with
    | |- context [Z.eqb ?a ?b] => destruct (Z.eqb_spec a b); try lia
    | |- context [Z.leb ?a ?b] => destruct (Z.leb_spec a b); try lia
    end;
  try reflexivity.

Section Dispatch.
Context {host : Host} {ops : SnapTracker}.
Implicit Types (csp : option Vector) (ev : QKeyEvent).

Lemma dispatch_Q csp ev : key ev = Key_Q → dispatch csp ev = on_Q csp.
Proof. intros Hk. key_tests. Qed.

Lemma dispatch_Escape csp ev :
  key ev = Key_Escape → dispatch csp ev = on_Escape.
Proof. intros Hk. key_tests. Qed.

Lemma dispatch_digit csp ev :
  Key_0 ≤ key ev ≤ Key_9 → dispatch csp ev = on_digit csp (text ev).
Proof. intros Hk. key_tests. Qed.

Lemma dispatch_erase csp ev :
  key ev = Key_Backspace ∨ key ev = Key_Delete → dispatch csp ev = on_erase.
Proof. intros Hk. key_tests. Qed.

Lemma dispatch_separator csp ev :
  key ev = Key_Period ∨ key ev = Key_Comma → dispatch csp ev = on_separator.
Proof. intros Hk. key_tests. Qed.

Lemma dispatch_commit csp ev :
  key ev = Key_Return ∨ key ev = Key_Enter → dispatch csp ev = on_commit.
Proof. intros Hk. key_tests. Qed.

(** A digit key reaches [on_digit] and no other key does. *)
Lemma dispatch_not_digit csp ev :
  ¬ (Key_0 ≤ key ev ≤ Key_9) →
  dispatch csp ev = on_Q csp ∨ dispatch csp ev = on_Escape ∨
  dispatch csp ev = on_erase ∨ dispatch csp ev = on_separator ∨
  dispatch csp ev = on_commit ∨ dispatch csp ev = emit Super_keyPressEvent.
Proof. intros Hk. key_tests; auto 10. Qed.
End Dispatch.

(** ** The handler on a tracker object *)

(** Runs the monadic code symbolically, leaving the guards folded. *)
Ltac step_handler :=
  repeat progress
    (unfold run, mbind, mret, M_bind, M_ret, attr, accept, emit, on_tracker,
       call_setHoldPoint, call_clearHoldPoint, call_processNumericInput,
       call_updateTracking, call_commitInput, call_get_wp,
       call_get_orthogonal_direction, assign_inputDistance,
       assign_locked_dir_vector;
     cbn -[truthy_vec truthy_str isdigit strip drop_last pystr_of_string]).

(** Membership of an effect or a call in an explicit list. *)
Ltac in_trace :=
  repeat match goal with
    | |- _ ∉ _ => intros ?
    | |- ∀ _, _ => intros ?
    | Hin : _ ∈ [] |- _ => by apply elem_of_nil in Hin
    | Hin : _ ∈ _ :: _ |- _ =>
        apply elem_of_cons in Hin; destruct Hin as [Hin|Hin];
        [try discriminate Hin; simplify_eq|]
    end;
  try done.

Section HandlerProperties.
Context {host : Host} {ops : SnapTracker}.
Implicit Types (t : Tracker) (csp : option Vector) (ev : QKeyEvent).

Lemma keyPressEvent_obj t csp ev :
  keyPressEvent (mkReceiver (AttrObj t) csp) ev =
  run (dispatch csp ev) t (isAccepted ev).
Proof. reflexivity. Qed.

(** What [on_digit] does in each of its four cases. *)
Lemma run_on_digit_no_hold csp digit t b :
  truthy_vec (holdPoint t) = false →
  run (on_digit csp digit) t b = mkOutcome (AttrObj t) true [Accept].
Proof.
  intros Hh. unfold on_digit. step_handler. rewrite Hh. by step_handler.
Qed.

Lemma run_on_digit_not_digit csp digit t b :
  truthy_vec (holdPoint t) = true → isdigit digit = false →
  run (on_digit csp digit) t b =
    mkOutcome (AttrObj t) true
      [PrintError [Lit "Invalid numeric input ignored: "; FmtStr digit;
                   Lit "\n"];
       Accept].
Proof.
  intros Hh Hd. unfold on_digit.
  repeat (step_handler; first [rewrite Hh | rewrite Hd]).
  by step_handler.
Qed.

Lemma run_on_digit_next csp digit t b d :
  truthy_vec (holdPoint t) = true → isdigit digit = true →
  inputDistance t = Some d →
  run (on_digit csp digit) t b =
    mkOutcome (AttrObj (processNumericInput digit t)) true
      [Call (Call_processNumericInput digit); Accept].
Proof.
  intros Hh Hd Hi. unfold on_digit.
  repeat (step_handler; first [rewrite Hh | rewrite Hd | rewrite Hi]).
  by step_handler.
Qed.

Lemma run_on_digit_first csp digit t b :
  truthy_vec (holdPoint t) = true → isdigit digit = true →
  inputDistance t = None →
  run (on_digit csp digit) t b =
    run (call_processNumericInput digit;; lock_direction csp;; accept) t b.
Proof.
  intros Hh Hd Hi. unfold on_digit.
  repeat (step_handler; first [rewrite Hh | rewrite Hd | rewrite Hi]).
  step_handler. by destruct (lock_direction _ _).
Qed.

Lemma run_first_digit csp digit t b :
  run (call_processNumericInput digit;; lock_direction csp;; accept) t b =
  first_digit_outcome csp digit t.
Proof.
  unfold lock_direction, first_digit_outcome. step_handler.
  destruct (holdPoint (processNumericInput digit t)) as [h|];
    [destruct csp as [p|]; [destruct (Vector_bool h && Vector_bool p)|]|];
    step_handler; try done.
  destruct (_get_wp _) as [wp t1]. step_handler.
  destruct (get_orthogonal_direction _ _) as [v t2]. by step_handler.
Qed.

(** The calls of the first-digit path start with the digit and hand no
    other text to [processNumericInput]. *)
Lemma first_digit_calls csp digit t :
  ∃ rest,
    tracker_calls (out_trace (first_digit_outcome csp digit t))
    = Call_processNumericInput digit :: rest ∧
    ∀ s, Call_processNumericInput s ∉ rest.
Proof.
  unfold first_digit_outcome. cbv zeta.
  destruct (holdPoint (processNumericInput digit t)) as [h|];
    [destruct csp as [p|]; [destruct (Vector_bool h && Vector_bool p)|]|];
    try (exists []; split; [done|]; in_trace).
  destruct (_get_wp _) as [wp t1].
  destruct (get_orthogonal_direction _ _) as [v t2].
  eexists. split; [done|]. in_trace.
Qed.

(** Where the first-digit path assigns the locked direction. *)
Lemma first_digit_lock csp digit t v :
  Assign_locked_dir_vector v ∈ out_trace (first_digit_outcome csp digit t) →
  ∃ h p wp t1 t2,
    holdPoint (processNumericInput digit t) = Some h ∧ csp = Some p ∧
    Vector_bool h = true ∧ Vector_bool p = true ∧
    _get_wp (processNumericInput digit t) = (wp, t1) ∧
    get_orthogonal_direction
      (multVec (get_local_rotation wp) (Vector_sub p h)) t1 = (v, t2) ∧
    out_tracker (first_digit_outcome csp digit t) =
      AttrObj (mkTracker (holdPoint t2) (inputDistance t2) v (internals t2)).
Proof.
  unfold first_digit_outcome. cbv zeta.
  destruct (holdPoint (processNumericInput digit t)) as [h|];
    [destruct csp as [p|];
     [destruct (Vector_bool h && Vector_bool p) eqn:Hb|]|];
    try (intros Hin; cbn in Hin; by in_trace).
  destruct (_get_wp _) as [wp t1].
  destruct (get_orthogonal_direction _ _) as [v' t2] eqn:Ho.
  intros Hin. cbn in Hin. in_trace.
  apply andb_true_iff in Hb as [Hh Hp].
  exists h, p, wp, t1, t2. by rewrite Ho.
Qed.

(** No branch but the digit one assigns the locked direction. *)
Lemma no_lock_outside_digit csp ev t v :
  ¬ (Key_0 ≤ key ev ≤ Key_9) →
  Assign_locked_dir_vector v
    ∉ out_trace (run (dispatch csp ev) t (isAccepted ev)).
Proof.
  intros Hk.
  destruct (dispatch_not_digit csp ev Hk)
    as [->|[->|[->|[->|[->| ->]]]]].
  - unfold on_Q. destruct csp; step_handler; in_trace.
  - unfold on_Escape. step_handler. in_trace.
  - unfold on_erase. step_handler.
    destruct (inputDistance t) as [[|c r]|]; step_handler; in_trace.
  - unfold on_separator. step_handler. in_trace.
  - unfold on_commit. step_handler.
    destruct (negb _ || _); step_handler; [in_trace|].
    destruct (commitInput t) as [[x|] t']; step_handler; in_trace.
  - step_handler. in_trace.
Qed.

(** The guard of the commit branch is the negation of [has_input]. *)
Lemma commit_guard d :
  negb (truthy_str d) || is_empty (strip (default [] d)) = negb (has_input d).
Proof.
  destruct d as [s|]; [|done]. unfold has_input, truthy_str, default.
  destruct (is_empty s) eqn:Es; [done|]. simpl.
  destruct (forallb Py_UNICODE_ISSPACE s) eqn:E.
  - apply strip_nil_iff in E. by rewrite E.
  - destruct (strip s) eqn:S; [|done].
    apply strip_nil_iff in S. congruence.
Qed.
End HandlerProperties.

(** ** The key handler, key by key *)

Section KeyHandling.
Context {host : Host} {ops : SnapTracker}.
Implicit Types (t : Tracker) (csp : option Vector) (ev : QKeyEvent).

(** C1.  For a key code from [Qt.Key_0] to [Qt.Key_9] the handler hands a
    text to [processNumericInput] only when the tracker's hold point is
    set, and that text is the event's text; with a hold point and a digit
    text it does hand it over.  Without a hold point ([None], or any
    value that is false) the event is accepted, no tracker method is
    called and the tracker is left as it was. *)
Theorem digit_forwarded_only_with_hold_point t csp ev :
  Key_0 ≤ key ev ≤ Key_9 →
  let out := keyPressEvent (mkReceiver (AttrObj t) csp) ev in
  (∀ s, Call_processNumericInput s ∈ tracker_calls (out_trace out) →
        s = text ev ∧ truthy_vec (holdPoint t) = true) ∧
  (truthy_vec (holdPoint t) = true → isdigit (text ev) = true →
   Call_processNumericInput (text ev) ∈ tracker_calls (out_trace out)) ∧
  (truthy_vec (holdPoint t) = false →
   out = mkOutcome (AttrObj t) true [Accept]) ∧
  (holdPoint t = None → out = mkOutcome (AttrObj t) true [Accept]).
Proof.
  intros Hk out. subst out.
  rewrite keyPressEvent_obj, (dispatch_digit _ _ Hk).
  destruct (truthy_vec (holdPoint t)) eqn:Hh.
  - assert (Hsome : holdPoint t ≠ None) by (intros E; by rewrite E in Hh).
    destruct (isdigit (text ev)) eqn:Hd.
    + destruct (inputDistance t) as [d|] eqn:Hi.
      * rewrite (run_on_digit_next _ _ _ _ d Hh Hd Hi). cbn.
        split_and!; in_trace. apply list_elem_of_here.
      * rewrite (run_on_digit_first _ _ _ _ Hh Hd Hi), run_first_digit.
        destruct (first_digit_calls csp (text ev) t) as (rest & -> & Hrest).
        split_and!; in_trace.
        -- match goal with Hin : _ ∈ rest |- _ => by apply Hrest in Hin end.
        -- apply list_elem_of_here.
    + rewrite (run_on_digit_not_digit _ _ _ _ Hh Hd). cbn.
      split_and!; in_trace.
  - rewrite (run_on_digit_no_hold _ _ _ _ Hh). cbn. split_and!; in_trace.
Qed.

(** C2.  The handler assigns [locked_dir_vector] only on a digit key
    pressed while [inputDistance] is [None], with a hold point and a snap
    point; the value assigned is the tracker's orthogonal direction of
    [currentSnapPoint - holdPoint] rotated by the working plane's local
    rotation.  On a digit pressed while [inputDistance] holds a string
    the handler calls [processNumericInput] and nothing else: the tracker
    it leaves is the one that call returned, with no assignment to
    [locked_dir_vector]. *)
Theorem direction_locked_on_first_digit_only t csp ev :
  let out := keyPressEvent (mkReceiver (AttrObj t) csp) ev in
  (∀ v, Assign_locked_dir_vector v ∈ out_trace out →
     Key_0 ≤ key ev ≤ Key_9 ∧ inputDistance t = None ∧
     truthy_vec (holdPoint t) = true ∧
     ∃ h p wp t1 t2,
       holdPoint (processNumericInput (text ev) t) = Some h ∧
       csp = Some p ∧ Vector_bool h = true ∧ Vector_bool p = true ∧
       _get_wp (processNumericInput (text ev) t) = (wp, t1) ∧
       get_orthogonal_direction
         (multVec (get_local_rotation wp) (Vector_sub p h)) t1 = (v, t2) ∧
       out_tracker out =
         AttrObj (mkTracker (holdPoint t2) (inputDistance t2) v
                            (internals t2))) ∧
  (Key_0 ≤ key ev ≤ Key_9 → truthy_vec (holdPoint t) = true →
   isdigit (text ev) = true →
     (inputDistance t = None →
        out = first_digit_outcome csp (text ev) t) ∧
     (∀ d, inputDistance t = Some d →
        out = mkOutcome (AttrObj (processNumericInput (text ev) t)) true
                [Call (Call_processNumericInput (text ev)); Accept])).
Proof.
  intros out. subst out. rewrite keyPressEvent_obj. split.
  - intros v Hin. destruct (decide (Key_0 ≤ key ev ≤ Key_9)) as [Hk|Hk];
      [|by apply no_lock_outside_digit in Hin].
    rewrite (dispatch_digit _ _ Hk) in *.
    destruct (truthy_vec (holdPoint t)) eqn:Hh;
      [|rewrite (run_on_digit_no_hold _ _ _ _ Hh) in Hin;
        cbn in Hin; by in_trace].
    destruct (isdigit (text ev)) eqn:Hd;
      [|rewrite (run_on_digit_not_digit _ _ _ _ Hh Hd) in Hin;
        cbn in Hin; by in_trace].
    destruct (inputDistance t) as [d|] eqn:Hi;
      [rewrite (run_on_digit_next _ _ _ _ d Hh Hd Hi) in Hin;
       cbn in Hin; by in_trace|].
    rewrite (run_on_digit_first _ _ _ _ Hh Hd Hi), run_first_digit in *.
    do 3 (split; [done|]). by apply first_digit_lock.
  - intros Hk Hh Hd. rewrite (dispatch_digit _ _ Hk). split.
    + intros Hi. by rewrite (run_on_digit_first _ _ _ _ Hh Hd Hi),
                            run_first_digit.
    + intros d Hi. by rewrite (run_on_digit_next _ _ _ _ d Hh Hd Hi).
Qed.

(** C3.  On Return or Enter the handler calls [commitInput] if and only
    if [inputDistance] is a string that is not empty and not only
    whitespace; otherwise it prints an error, accepts the event and
    leaves the tracker as it was. *)
Theorem commit_iff_input_valid t csp ev :
  key ev = Key_Return ∨ key ev = Key_Enter →
  let out := keyPressEvent (mkReceiver (AttrObj t) csp) ev in
  (Call_commitInput ∈ tracker_calls (out_trace out) ↔
     has_input (inputDistance t) = true) ∧
  (has_input (inputDistance t) = false →
     out = mkOutcome (AttrObj t) true
             [PrintError [Lit "No valid numeric input. Press Escape to reset or enter a valid number.\n"];
              Accept]) ∧
  (has_input (inputDistance t) = true →
     out_tracker out = AttrObj (commitInput t).2 ∧
     tracker_calls (out_trace out) = [Call_commitInput] ∧
     filter is_error (out_trace out) = []).
Proof.
  intros Hk out. subst out.
  rewrite keyPressEvent_obj, (dispatch_commit _ _ Hk). unfold on_commit.
  step_handler. rewrite commit_guard.
  destruct (has_input (inputDistance t)); step_handler.
  - destruct (commitInput t) as [[x|] t']; step_handler.
    all: split_and!; try done; split; try done; intros _;
      apply list_elem_of_here.
  - split_and!; try done. split; [|done]. in_trace.
Qed.

(** C4.  On Backspace or Delete with a non-empty [inputDistance] the
    handler assigns the buffer without its last character and then calls
    [updateTracking]; with an empty buffer or [None] it accepts the event
    and leaves the tracker as it was. *)
Theorem erase_removes_last_character t csp ev :
  key ev = Key_Backspace ∨ key ev = Key_Delete →
  let out := keyPressEvent (mkReceiver (AttrObj t) csp) ev in
  (∀ s, inputDistance t = Some s → s ≠ [] →
     let t' := updateTracking
                 (mkTracker (holdPoint t) (Some (drop_last s))
                            (locked_dir_vector t) (internals t)) in
     (∃ c, s = drop_last s ++ [c]) ∧
     out = mkOutcome (AttrObj t') true
             [Assign_inputDistance (drop_last s);
              Call Call_updateTracking;
              PrintMessage
                [Lit "Numeric input backspaced. Current input: ";
                 FmtOptStr (inputDistance t'); Lit "\n"];
              Accept]) ∧
  (inputDistance t = Some [] ∨ inputDistance t = None →
     out = mkOutcome (AttrObj t) true [Accept]).
Proof.
  intros Hk out. subst out.
  rewrite keyPressEvent_obj, (dispatch_erase _ _ Hk). unfold on_erase.
  split.
  - intros s Hs Hne. split; [by apply drop_last_last|].
    step_handler. rewrite Hs. destruct s as [|c r]; [done|].
    by step_handler.
  - intros [Hs|Hs]; step_handler; rewrite Hs; by step_handler.
Qed.

(** C5.  On Q the handler calls [setHoldPoint] with the current snap
    point when that is not [None], and calls no tracker method when it is
    [None]; on Escape it calls [clearHoldPoint] whatever the state.  In
    both cases the event is accepted and nothing else is done. *)
Theorem hold_point_keys t csp ev :
  let out := keyPressEvent (mkReceiver (AttrObj t) csp) ev in
  (key ev = Key_Q →
     (∀ p, csp = Some p →
        out = mkOutcome (AttrObj (setHoldPoint p t)) true
                [Call (Call_setHoldPoint p);
                 PrintMessage [Lit "Hold point set to: "; FmtVector p;
                               Lit "\n"];
                 Accept]) ∧
     (csp = None → out = mkOutcome (AttrObj t) true [Accept])) ∧
  (key ev = Key_Escape →
     out = mkOutcome (AttrObj (clearHoldPoint t)) true
             [Call Call_clearHoldPoint;
              PrintMessage [Lit "Hold point cleared.\n"];
              Accept]).
Proof.
  intros out. subst out. rewrite keyPressEvent_obj. split.
  - intros Hk. rewrite (dispatch_Q _ _ Hk). unfold on_Q.
    split; [intros p ->| intros ->]; by step_handler.
  - intros Hk. rewrite (dispatch_Escape _ _ Hk). unfold on_Escape.
    by step_handler.
Qed.

(** C9.  On Period or Comma the handler calls [processNumericInput(".")]
    whatever the tracker holds: neither the hold point nor the buffer is
    looked at. *)
Theorem separator_always_forwarded t csp ev :
  key ev = Key_Period ∨ key ev = Key_Comma →
  keyPressEvent (mkReceiver (AttrObj t) csp) ev =
    mkOutcome (AttrObj (processNumericInput (pystr_of_string ".") t)) true
      [Call (Call_processNumericInput (pystr_of_string ".")); Accept].
Proof.
  intros Hk. rewrite keyPressEvent_obj, (dispatch_separator _ _ Hk).
  unfold on_separator. by step_handler.
Qed.

(** C10.  A digit key whose text is not a digit string, pressed while a
    hold point is set: the handler prints an error, accepts the event
    and calls no tracker method; the tracker is left as it was. *)
Theorem non_digit_text_ignored t csp ev :
  Key_0 ≤ key ev ≤ Key_9 →
  truthy_vec (holdPoint t) = true →
  isdigit (text ev) = false →
  let out := keyPressEvent (mkReceiver (AttrObj t) csp) ev in
  out = mkOutcome (AttrObj t) true
          [PrintError [Lit "Invalid numeric input ignored: ";
                       FmtStr (text ev); Lit "\n"];
           Accept] ∧
  tracker_calls (out_trace out) = [] ∧
  filter is_error (out_trace out) ≠ [].
Proof.
  intros Hk Hh Hd out. subst out.
  rewrite keyPressEvent_obj, (dispatch_digit _ _ Hk).
  rewrite (run_on_digit_not_digit _ _ _ _ Hh Hd). done.
Qed.
End KeyHandling.

(** ** Missing host objects *)

Section MissingObjects.
Context {host : Host} {ops : SnapTracker} {snp : SnapperHost}.

(** C6.  Without [Gui.Snapper], [Draft_Snap_Base.Activated] returns
    silently and [Draft_Snap_Base.toggleSnapMode] prints an error; neither
    toggles a snap mode, and [Gui] still has no snapper.  Without a
    tracker (the attribute is missing or [None]) [keyPressEvent] prints
    an error and accepts the event; it calls no tracker method and the
    receiver's tracker attribute stays as it was. *)
Theorem missing_objects_are_noops :
  (∀ (g : GuiState) c status,
     Gui_Snapper g = None → Activated c status g = g) ∧
  (∀ (g : GuiState) mode status,
     Gui_Snapper g = None →
     toggleSnapMode mode status g =
       mkGui None
         (console g ++
            ["Error: Gui.Snapper is missing. Cannot toggle snap mode.\n"])) ∧
  (∀ (self : Receiver) ev,
     tracker self = AttrMissing ∨ tracker self = AttrNone →
     let out := keyPressEvent self ev in
     out = mkOutcome (tracker self) true
             [PrintError
                [Lit "Error: Tracker is missing. Cannot process input.\n"];
              Accept] ∧
     tracker_calls (out_trace out) = []).
Proof.
  split_and!.
  - intros g c status Hg. unfold Activated. by rewrite Hg.
  - intros g mode status Hg. unfold toggleSnapMode. by rewrite Hg.
  - intros self ev [Ht|Ht] out; subst out; unfold keyPressEvent;
      by rewrite Ht.
Qed.
End MissingObjects.

(** ** Resource dictionaries *)

Section Resources.
Context {snp : SnapperHost}.

(** C8.  Every registered command's [GetResources] has the icon, the
    menu text, the tooltip and the command type; it has the checkable
    state unless the command is [ShowSnapBar], and the accelerator only
    when the command is [Draft_Snap_Lock]. *)
Theorem registered_commands_resources (g : GuiState) :
  Forall (λ entry, provided_resources g entry.2) registered_commands.
Proof.
  unfold registered_commands.
  repeat (apply Forall_cons; split; [|]); [..|apply Forall_nil].
  all: unfold provided_resources; cbv zeta; simpl snd.
  all: repeat match goal with |- _ ∧ _ => split end.
  all: first
         [ vm_compute; reflexivity
         | by vm_compute; eexists
         | intros Hc;
           first [discriminate Hc | by destruct Hc | vm_compute; reflexivity] ].
Qed.
End Resources.

(** ** Every path of the handler *)

Lemma handled_key_cases k :
  handled_key k = true ↔
  k = Key_Q ∨ k = Key_Escape ∨ Key_0 ≤ k ≤ Key_9 ∨
  k = Key_Backspace ∨ k = Key_Delete ∨ k = Key_Period ∨ k = Key_Comma ∨
  k = Key_Return ∨ k = Key_Enter.
Proof.
  unfold handled_key.
  rewrite !orb_true_iff, andb_true_iff, !Z.eqb_eq, !Z.leb_le. tauto.
Qed.

Ltac key_lia :=
  repeat match goal with
    | H : handled_key _ = false |- _ =>
        apply not_true_iff_false in H; rewrite handled_key_cases in H
    | H : handled_key _ = true |- _ => rewrite handled_key_cases in H
    end;
  unfold Key_Q, Key_Escape, Key_0, Key_9, Key_Backspace, Key_Delete,
    Key_Period, Key_Comma, Key_Return, Key_Enter in *;
  lia.

Section PathLemmas.
Context {host : Host} {ops : SnapTracker}.
Implicit Types (t : Tracker) (csp : option Vector) (ev : QKeyEvent).

(** The branch taken, with what is then known of the key. *)
Lemma dispatch_cases csp ev :
  (key ev = Key_Q ∧ dispatch csp ev = on_Q csp) ∨
  (key ev = Key_Escape ∧ dispatch csp ev = on_Escape) ∨
  (Key_0 ≤ key ev ≤ Key_9 ∧ dispatch csp ev = on_digit csp (text ev)) ∨
  ((key ev = Key_Backspace ∨ key ev = Key_Delete) ∧
     dispatch csp ev = on_erase) ∨
  ((key ev = Key_Period ∨ key ev = Key_Comma) ∧
     dispatch csp ev = on_separator) ∨
  ((key ev = Key_Return ∨ key ev = Key_Enter) ∧ dispatch csp ev = on_commit) ∨
  (handled_key (key ev) = false ∧ dispatch csp ev = emit Super_keyPressEvent).
Proof.
  destruct (decide (key ev = Key_Q)) as [E|NQ];
    [left; split; [done|by apply dispatch_Q]|right].
  destruct (decide (key ev = Key_Escape)) as [E|NE];
    [left; split; [done|by apply dispatch_Escape]|right].
  destruct (decide (Key_0 ≤ key ev ≤ Key_9)) as [E|ND];
    [left; split; [done|by apply dispatch_digit]|right].
  destruct (decide (key ev = Key_Backspace ∨ key ev = Key_Delete)) as [E|NB];
    [left; split; [done|by apply dispatch_erase]|right].
  destruct (decide (key ev = Key_Period ∨ key ev = Key_Comma)) as [E|NP];
    [left; split; [done|by apply dispatch_separator]|right].
  destruct (decide (key ev = Key_Return ∨ key ev = Key_Enter)) as [E|NR];
    [left; split; [done|by apply dispatch_commit]|right].
  split.
  - unfold handled_key, Key_Q, Key_Escape, Key_0, Key_9, Key_Backspace,
      Key_Delete, Key_Period, Key_Comma, Key_Return, Key_Enter in *.
    repeat match goal with
      | |- context [Z.eqb ?a ?b] => destruct (Z.eqb_spec a b); try lia
      | |- context [Z.leb ?a ?b] => destruct (Z.leb_spec a b); try lia
      end; reflexivity.
  - key_tests.
Qed.



Lemma run_on_erase_cut t b s c :
  inputDistance t = Some (s ++ [c]) →
  run on_erase t b =
    let t' := updateTracking
                (mkTracker (holdPoint t) (Some s) (locked_dir_vector t)
                           (internals t)) in
    mkOutcome (AttrObj t') true
      [Assign_inputDistance s;
       Call Call_updateTracking;
       PrintMessage [Lit "Numeric input backspaced. Current input: ";
                     FmtOptStr (inputDistance t'); Lit "\n"];
       Accept].
Proof.
  intros Hs. unfold on_erase. step_handler. rewrite Hs.
  destruct (s ++ [c]) as [|a r] eqn:E; [by destruct s|].
  assert (Hd : drop_last (a :: r) = s)
    by (rewrite <- E; apply drop_last_snoc).
  step_handler. by rewrite Hd.
Qed.

Lemma run_on_erase_nothing t b :
  truthy_str (inputDistance t) = false →
  run on_erase t b = mkOutcome (AttrObj t) true [Accept].
Proof.
  intros Hs. unfold on_erase. step_handler.
  destruct (inputDistance t) as [[|c r]|]; try done; by step_handler.
Qed.

Lemma run_on_commit t b :
  run on_commit t b =
    if has_input (inputDistance t) then
      match commitInput t with
      | (Some x, t') =>
          mkOutcome (AttrObj t') true
            [Call Call_commitInput;
             PrintMessage [Lit "Geometry created at: "; FmtTarget x;
                           Lit "\n"];
             Accept]
      | (None, t') =>
          mkOutcome (AttrObj t') true [Call Call_commitInput; Accept]
      end
    else
      mkOutcome (AttrObj t) true
        [PrintError [Lit "No valid numeric input. Press Escape to reset or enter a valid number.\n"];
         Accept].
Proof.
  unfold on_commit. step_handler. rewrite commit_guard.
  destruct (has_input (inputDistance t)); step_handler; [|done].
  by destruct (commitInput t) as [[x|] t'].
Qed.

(** Every call of the handler on a tracker object follows one of the
    paths. *)
Lemma keyPressEvent_paths t csp ev :
  KeyPath t csp ev (keyPressEvent (mkReceiver (AttrObj t) csp) ev).
Proof.
  rewrite keyPressEvent_obj.
  destruct (dispatch_cases csp ev)
    as [[Hk ->]|[[Hk ->]|[[Hk ->]|[[Hk ->]|[[Hk ->]|[[Hk ->]|[Hk ->]]]]]]].
  - unfold on_Q. destruct csp as [p|] eqn:Ec; step_handler.
    + by apply Path_Q_set.
    + by apply Path_Q_no_snap.
  - unfold on_Escape. step_handler. by apply Path_Escape.
  - destruct (truthy_vec (holdPoint t)) eqn:Hh;
      [|rewrite (run_on_digit_no_hold _ _ _ _ Hh);
        by apply Path_digit_no_hold].
    destruct (isdigit (text ev)) eqn:Hd;
      [|rewrite (run_on_digit_not_digit _ _ _ _ Hh Hd);
        by apply Path_digit_bad_text].
    destruct (inputDistance t) as [d|] eqn:Hi;
      [rewrite (run_on_digit_next _ _ _ _ d Hh Hd Hi);
       by apply (Path_digit_next _ _ _ d)|].
    rewrite (run_on_digit_first _ _ _ _ Hh Hd Hi), run_first_digit.
    unfold first_digit_outcome. cbv zeta.
    destruct (holdPoint (processNumericInput (text ev) t)) as [h|] eqn:Hh';
      [|apply Path_digit_first_plain; try done; by rewrite Hh'].
    destruct csp as [p|] eqn:Ec;
      [|apply Path_digit_first_plain; try done; rewrite Hh'; simpl;
        by destruct (Vector_bool h)].
    destruct (Vector_bool h && Vector_bool p) eqn:Hb;
      [|apply Path_digit_first_plain; try done; by rewrite Hh'].
    destruct (_get_wp _) as [wp t1] eqn:Hw.
    destruct (get_orthogonal_direction _ _) as [v t2] eqn:Ho.
    by eapply Path_digit_first_locked.
  - destruct (inputDistance t) as [s|] eqn:Hi;
      [|rewrite run_on_erase_nothing by (by rewrite Hi);
        apply Path_erase_nothing; [done|by rewrite Hi]].
    destruct (decide (s = [])) as [->|Hne];
      [rewrite run_on_erase_nothing by (by rewrite Hi);
       apply Path_erase_nothing; [done|by rewrite Hi]|].
    destruct (drop_last_last s Hne) as [c Hc]. rewrite Hc in Hi.
    rewrite (run_on_erase_cut _ _ _ _ Hi).
    by apply (Path_erase _ _ _ (drop_last s) c).
  - unfold on_separator. step_handler. by apply Path_separator.
  - rewrite run_on_commit.
    destruct (has_input (inputDistance t)) eqn:Hv;
      [|by apply Path_commit_refused].
    destruct (commitInput t) as [[x|] t'] eqn:Hc.
    + by apply Path_commit_target.
    + by apply Path_commit_no_target.
  - step_handler. by apply Path_other.
Qed.
End PathLemmas.

Ltac by_paths t csp ev :=
  generalize (keyPressEvent_paths t csp ev);
  generalize (keyPressEvent (mkReceiver (AttrObj t) csp) ev);
  intros ? [].

Section MoreKeyHandling.
Context {host : Host} {ops : SnapTracker}.
Implicit Types (t : Tracker) (csp : option Vector) (ev : QKeyEvent).

(** On a handled key the accepted flag the event arrives with plays no
    part. *)
Lemma run_dispatch_flag t csp ev b b' :
  handled_key (key ev) = true →
  run (dispatch csp ev) t b = run (dispatch csp ev) t b'.
Proof.
  intros Hh.
  destruct (dispatch_cases csp ev)
    as [[Hk ->]|[[Hk ->]|[[Hk ->]|[[Hk ->]|[[Hk ->]|[[Hk ->]|[Hk _]]]]]]].
  - unfold on_Q. destruct csp; by step_handler.
  - unfold on_Escape. by step_handler.
  - destruct (truthy_vec (holdPoint t)) eqn:Hv;
      [|by rewrite !(run_on_digit_no_hold _ _ _ _ Hv)].
    destruct (isdigit (text ev)) eqn:Hd;
      [|by rewrite !(run_on_digit_not_digit _ _ _ _ Hv Hd)].
    destruct (inputDistance t) as [d|] eqn:Hi;
      [by rewrite !(run_on_digit_next _ _ _ _ d Hv Hd Hi)|].
    by rewrite !(run_on_digit_first _ _ _ _ Hv Hd Hi), !run_first_digit.
  - destruct (inputDistance t) as [s|] eqn:Hi;
      [|by rewrite !run_on_erase_nothing by (by rewrite Hi)].
    destruct (decide (s = [])) as [->|Hne];
      [by rewrite !run_on_erase_nothing by (by rewrite Hi)|].
    destruct (drop_last_last s Hne) as [c Hc]. rewrite Hc in Hi.
    by rewrite !(run_on_erase_cut _ _ _ _ Hi).
  - unfold on_separator. by step_handler.
  - by rewrite !run_on_commit.
  - congruence.
Qed.


(** X2.  For every key the chain has a branch for, the handler accepts
    the event exactly once, as its last step, and never reaches
    [super().keyPressEvent(event)]. *)
Theorem handled_key_accepted_once t csp ev :
  handled_key (key ev) = true →
  let out := keyPressEvent (mkReceiver (AttrObj t) csp) ev in
  out_accepted out = true ∧
  ∃ pre, (out_trace out = pre ++ [Accept]) ∧
         (Accept ∉ pre) ∧ (Super_keyPressEvent ∉ pre).
Proof.
  intros Hk out. subst out. by_paths t csp ev; try (exfalso; key_lia).
  all: split; [done|]; cbn.
  all: match goal with
       | |- ∃ pre, ?l = _ ∧ _ => exists (removelast l)
       end.
  all: cbn; split_and!; in_trace.
Qed.

(** X3.  Whenever the handler prints an error, with or without a
    tracker, it has called no tracker method, the receiver's tracker is as
    it was, and the event is accepted. *)
Theorem error_means_nothing_done (self : Receiver) ev msg :
  PrintError msg ∈ out_trace (keyPressEvent self ev) →
  tracker_calls (out_trace (keyPressEvent self ev)) = [] ∧
  out_tracker (keyPressEvent self ev) = tracker self ∧
  out_accepted (keyPressEvent self ev) = true.
Proof.
  destruct self as [[| |t] csp]; [done..|].
  by_paths t csp ev; cbn; intros Hin; in_trace.
Qed.

(** X4.  Which key a tracker call can come from: [setHoldPoint] only from
    Q, with the snap point as argument; [clearHoldPoint] only from Escape;
    [processNumericInput] only from a digit key with a hold point and a
    digit text, which is passed on, or from Period or Comma, with ["."];
    [updateTracking] only from Backspace or Delete on a non-empty buffer;
    [commitInput] only from Return or Enter on a buffer with input;
    [_get_wp] and [get_orthogonal_direction] only from a digit key while
    [inputDistance] is [None] and there is a snap point. *)
Theorem tracker_calls_by_key t csp ev c :
  c ∈ tracker_calls (out_trace (keyPressEvent (mkReceiver (AttrObj t) csp) ev)) →
  match c with
  | Call_setHoldPoint p => key ev = Key_Q ∧ csp = Some p
  | Call_clearHoldPoint => key ev = Key_Escape
  | Call_processNumericInput s =>
      (Key_0 ≤ key ev ≤ Key_9 ∧ s = text ev ∧ isdigit (text ev) = true ∧
       truthy_vec (holdPoint t) = true) ∨
      ((key ev = Key_Period ∨ key ev = Key_Comma) ∧ s = pystr_of_string ".")
  | Call_updateTracking =>
      (key ev = Key_Backspace ∨ key ev = Key_Delete) ∧
      truthy_str (inputDistance t) = true
  | Call_commitInput =>
      (key ev = Key_Return ∨ key ev = Key_Enter) ∧
      has_input (inputDistance t) = true
  | Call_get_wp | Call_get_orthogonal_direction _ =>
      Key_0 ≤ key ev ≤ Key_9 ∧ inputDistance t = None ∧
      truthy_vec csp = true
  end.
Proof.
  by_paths t csp ev; cbn; intros Hin; in_trace; auto.
  all: repeat match goal with |- _ ∧ _ => split end; try done; try lia.
  all: try match goal with
         | H : _ && _ = true |- _ => by apply andb_true_iff in H as [_ ?]
         | H : inputDistance _ = Some (?s ++ _) |- _ =>
             rewrite H; by destruct s
         end.
Qed.

(** X5.  The handler assigns [inputDistance] only on Backspace or Delete,
    and what it assigns is the buffer without its last character. *)
Theorem buffer_assigned_only_by_erase t csp ev s :
  Assign_inputDistance s
    ∈ out_trace (keyPressEvent (mkReceiver (AttrObj t) csp) ev) →
  (key ev = Key_Backspace ∨ key ev = Key_Delete) ∧
  ∃ c, inputDistance t = Some (s ++ [c]).
Proof.
  by_paths t csp ev; cbn; intros Hin; in_trace. eauto.
Qed.

(** X16.  On Return or Enter with input in the buffer, the tracker is
    left as [commitInput] returned it and the event is accepted; the
    message "Geometry created at" is printed exactly when [commitInput]
    returned a target, and names that target. *)
Theorem commit_reports_target t csp ev :
  key ev = Key_Return ∨ key ev = Key_Enter →
  has_input (inputDistance t) = true →
  let out := keyPressEvent (mkReceiver (AttrObj t) csp) ev in
  out_tracker out = AttrObj (commitInput t).2 ∧
  out_accepted out = true ∧
  (∀ msg, PrintMessage msg ∈ out_trace out ↔
     ∃ x, (commitInput t).1 = Some x ∧
          msg = [Lit "Geometry created at: "; FmtTarget x; Lit "\n"]).
Proof.
  intros Hk Hv out. subst out.
  rewrite keyPressEvent_obj, (dispatch_commit _ _ Hk), run_on_commit, Hv.
  destruct (commitInput t) as [[x|] t']; cbn; split_and!; try done.
  - intros msg. split; [intros Hin; in_trace; eauto|].
    intros (y & [= <-] & ->). apply list_elem_of_further, list_elem_of_here.
  - intros msg. split; [intros Hin; in_trace|]. by intros (y & ? & _).
Qed.

(** X6.  What the handler reads: the event's text only for a digit key;
    the receiver's snap point only for Q and the digit keys; and, for a
    key the chain has a branch for, never the accepted flag the event
    arrives with. *)
Theorem handler_reads_only_what_the_key_needs (self : Receiver) ev :
  (∀ ev', key ev' = key ev → isAccepted ev' = isAccepted ev →
     ¬ (Key_0 ≤ key ev ≤ Key_9) →
     keyPressEvent self ev' = keyPressEvent self ev) ∧
  (∀ csp', key ev ≠ Key_Q → ¬ (Key_0 ≤ key ev ≤ Key_9) →
     keyPressEvent (mkReceiver (tracker self) csp') ev =
     keyPressEvent self ev) ∧
  (∀ ev', key ev' = key ev → text ev' = text ev →
     handled_key (key ev) = true →
     keyPressEvent self ev' = keyPressEvent self ev).
Proof.
  destruct self as [[| |t] csp]; [done..|]. split_and!.
  - intros ev' Hk Ha Hn. rewrite !keyPressEvent_obj, Ha. f_equal.
    unfold dispatch. cbv zeta. rewrite Hk.
    replace ((Key_0 <=? key ev) && (key ev <=? Key_9)) with false; [done|].
    symmetry. apply not_true_iff_false.
    rewrite andb_true_iff, !Z.leb_le. tauto.
  - intros csp' HQ Hn. cbn [tracker]. rewrite !keyPressEvent_obj. f_equal.
    unfold dispatch. cbv zeta.
    replace ((Key_0 <=? key ev) && (key ev <=? Key_9)) with false.
    + by replace (key ev =? Key_Q) with false
        by (symmetry; by apply Z.eqb_neq).
    + symmetry. apply not_true_iff_false.
      rewrite andb_true_iff, !Z.leb_le. tauto.
  - intros ev' Hk Ht Hh. rewrite !keyPressEvent_obj.
    replace (dispatch csp ev') with (dispatch csp ev)
      by (unfold dispatch; by rewrite Hk, Ht).
    by apply run_dispatch_flag.
Qed.

(** X7.  Enter does what Return does, Delete what Backspace does, and
    Comma what Period does, whatever text and accepted flag the two events
    carry. *)
Theorem alias_keys_agree (self : Receiver) ev ev' :
  (key ev = Key_Return ∧ key ev' = Key_Enter) ∨
  (key ev = Key_Backspace ∧ key ev' = Key_Delete) ∨
  (key ev = Key_Period ∧ key ev' = Key_Comma) →
  keyPressEvent self ev = keyPressEvent self ev'.
Proof.
  intros Hk. destruct self as [[| |t] csp]; [done..|].
  rewrite !keyPressEvent_obj.
  rewrite (run_dispatch_flag t csp ev _ (isAccepted ev'))
    by (apply handled_key_cases; destruct Hk as [[-> _]|[[-> _]|[-> _]]];
        auto 10).
  f_equal. destruct Hk as [[H1 H2]|[[H1 H2]|[H1 H2]]].
  - rewrite !dispatch_commit; auto.
  - rewrite !dispatch_erase; auto.
  - rewrite !dispatch_separator; auto.
Qed.

(** X15.  Successive Backspace or Delete events, for a tracker whose
    [updateTracking] leaves [inputDistance] alone: after [n] of them the
    buffer is the first [length s - n] characters of the buffer [s] it
    was, never [None]; once it is empty, Return or Enter is refused with
    the error and the tracker untouched. *)
Theorem erase_keys_shorten_buffer evs t csp s :
  (∀ t0, inputDistance (updateTracking t0) = inputDistance t0) →
  Forall (λ ev, key ev = Key_Backspace ∨ key ev = Key_Delete) evs →
  inputDistance t = Some s →
  ∃ t', tracker (press_all (mkReceiver (AttrObj t) csp) evs) = AttrObj t' ∧
        inputDistance t' = Some (take (length s - length evs)%nat s) ∧
        ((length s ≤ length evs)%nat →
         ∀ ev, key ev = Key_Return ∨ key ev = Key_Enter →
           keyPressEvent (press_all (mkReceiver (AttrObj t) csp) evs) ev =
             mkOutcome (AttrObj t') true
               [PrintError [Lit "No valid numeric input. Press Escape to reset or enter a valid number.\n"];
                Accept]).
Proof.
  intros Hupd Hevs. revert t s.
  induction Hevs as [|e evs He Hevs IH]; intros t s Hs.
  - exists t. change (press_all ?r []) with r. cbn [tracker length].
    rewrite Nat.sub_0_r, firstn_all. split_and!; try done.
    intros Hlen ev Hk.
    assert (s = []) as -> by (destruct s; [done|cbn in Hlen; lia]).
    rewrite keyPressEvent_obj, (dispatch_commit _ _ Hk), run_on_commit.
    by rewrite Hs.
  - change (press_all (mkReceiver (AttrObj t) csp) (e :: evs))
      with (press_all (after (mkReceiver (AttrObj t) csp) e) evs).
    unfold after. cbn [currentSnapPoint].
    rewrite keyPressEvent_obj, (dispatch_erase _ _ He).
    destruct (decide (s = [])) as [->|Hne].
    + rewrite run_on_erase_nothing by (by rewrite Hs). cbn [out_tracker].
      destruct (IH t [] Hs) as (t' & Ht & Hi & Hc).
      exists t'. split_and!; try done. intros _. apply Hc. cbn. lia.
    + destruct (drop_last_last s Hne) as [c Hc]. rewrite Hc in Hs.
      rewrite (run_on_erase_cut _ _ _ _ Hs). cbv zeta. cbn [out_tracker].
      set (t1 := updateTracking _).
      assert (Hs1 : inputDistance t1 = Some (drop_last s))
        by (unfold t1; by rewrite Hupd).
      destruct (IH t1 _ Hs1) as (t' & Ht & Hi & Hcm).
      assert (Hl : length (drop_last s) = (length s - 1)%nat).
      { rewrite Hc at 2. rewrite length_app. cbn. lia. }
      exists t'. split_and!; [done| |].
      * rewrite Hi, Hl. f_equal. unfold drop_last.
        rewrite take_take. f_equal. cbn. lia.
      * intros Hlen. apply Hcm. rewrite Hl. cbn in Hlen. lia.
Qed.
End MoreKeyHandling.

(** X8.  [self.__class__.__name__[11:]] removes the prefix
    ["Draft_Snap_"] from the name of every command class but
    [ShowSnapBar], whose name has 11 characters and leaves the empty
    string; for [Draft_Snap_Lock] it is ["Lock"]; and no two classes have
    the same snap name. *)
Theorem snap_name_strips_prefix :
  (∀ c, c ≠ ShowSnapBar →
        class_name c = String.append "Draft_Snap_" (snap_name c)) ∧
  snap_name ShowSnapBar = "" ∧
  snap_name Draft_Snap_Lock = "Lock" ∧
  (∀ c c', snap_name c = snap_name c' → c = c').
Proof.
  split_and!; try done.
  - intros c Hc. by destruct c.
  - intros c c' E. destruct c, c'; try reflexivity; vm_compute in E;
      discriminate E.
Qed.

Section MoreCommands.
Context {snp : SnapperHost}.
Implicit Types (g : GuiState) (c : SnapCommand).

Lemma checkable_lookup c g :
  c ≠ ShowSnapBar →
  GetResources c g !! "Checkable" = Some (VBool (isChecked c g)).
Proof. intros Hc. destruct c; try done; vm_compute; reflexivity. Qed.

Lemma isChecked_true c g :
  isChecked c g = true ↔
  ∃ sn, Gui_Snapper g = Some sn ∧ snap_name c ∈ active_snaps sn.
Proof.
  unfold isChecked. destruct (Gui_Snapper g) as [sn|].
  - rewrite bool_decide_eq_true. split; [eauto|]. by intros (? & [= <-] & ?).
  - split; [done|]. by intros (? & ? & _).
Qed.

(** X9.  For every command class but [ShowSnapBar], the resource
    ["Checkable"] is [True] exactly when [Gui] has a snapper and the
    class's snap name is among its active snaps. *)
Theorem checkable_reflects_active_snaps c g :
  c ≠ ShowSnapBar →
  GetResources c g !! "Checkable" = Some (VBool true) ↔
  ∃ sn, Gui_Snapper g = Some sn ∧ snap_name c ∈ active_snaps sn.
Proof.
  intros Hc. rewrite (checkable_lookup _ _ Hc), <- isChecked_true.
  split; [by intros [= ->]|by intros ->].
Qed.

(** X10.  If the snapper's [toggle_snap(name, True)] makes [name] active
    and [toggle_snap(name, False)] makes it inactive, then after
    [Draft_Snap_Base.Activated(status)] with a snapper present [isChecked]
    is [bool(status)], and nothing was printed. *)
Theorem activated_then_checked c status g sn :
  (∀ n s, n ∈ active_snaps (toggle_snap n true s)) →
  (∀ n s, n ∉ active_snaps (toggle_snap n false s)) →
  Gui_Snapper g = Some sn →
  isChecked c (Activated c status g) = bool_of_status status ∧
  console (Activated c status g) = console g.
Proof.
  intros Hon Hoff Hg. unfold Activated. rewrite Hg. split; [|done].
  unfold isChecked. cbn. destruct (bool_of_status status).
  - by apply bool_decide_eq_true.
  - by apply bool_decide_eq_false.
Qed.

(** X14.  [Draft_Snap_Base.Activated] and [toggleSnapMode] neither
    create nor remove [Gui.Snapper]; [toggleSnapMode] only adds to the
    console; when it prints, the snapper is left as it was, and when it
    does not print, there is a snapper with [snap_modes] set and it has
    been toggled with [bool(status)]. *)
Theorem snapper_presence_kept c mode status g :
  (is_Some (Gui_Snapper (Activated c status g)) ↔ is_Some (Gui_Snapper g)) ∧
  (is_Some (Gui_Snapper (toggleSnapMode mode status g))
     ↔ is_Some (Gui_Snapper g)) ∧
  console g `prefix_of` console (toggleSnapMode mode status g) ∧
  (console (toggleSnapMode mode status g) ≠ console g →
     Gui_Snapper (toggleSnapMode mode status g) = Gui_Snapper g) ∧
  (console (toggleSnapMode mode status g) = console g →
     ∃ sn, Gui_Snapper g = Some sn ∧ snap_modes_set sn = true ∧
           Gui_Snapper (toggleSnapMode mode status g)
             = Some (toggle_snap mode (bool_of_status status) sn)).
Proof.
  assert (Hgrow : ∀ (l : list string) x, l ++ [x] ≠ l).
  { intros l x E. apply (f_equal length) in E. rewrite length_app in E.
    cbn in E. lia. }
  unfold Activated, toggleSnapMode.
  destruct (Gui_Snapper g) as [sn|] eqn:Hg; cbn [Gui_Snapper console].
  - destruct (snap_modes_set sn) eqn:Hm; cbn [negb Gui_Snapper console].
    + repeat split; eauto. intros E. by destruct E.
    + repeat split; eauto using prefix_app_r.
      intros E. by apply Hgrow in E.
  - rewrite Hg. repeat split; eauto using prefix_app_r.
    intros E. by apply Hgrow in E.
Qed.
End MoreCommands.

Ltac in_list :=
  solve [repeat first [apply list_elem_of_here | apply list_elem_of_further]].

Section MoreResources.
Context {snp : SnapperHost}.
Implicit Types (g : GuiState) (c : SnapCommand).

(** X11.  [GetResources] depends on the state of [Gui] only under the key
    ["Checkable"], and has no key other than ["Pixmap"], ["Accel"],
    ["MenuText"], ["ToolTip"], ["CmdType"] and ["Checkable"]. *)
Theorem resources_outside_checkable c g g' :
  (∀ k, k ≠ "Checkable" → GetResources c g !! k = GetResources c g' !! k) ∧
  (∀ k, is_Some (GetResources c g !! k) →
        k ∈ ["Pixmap"; "Accel"; "MenuText"; "ToolTip"; "CmdType";
             "Checkable"]).
Proof.
  split; intros k; destruct c; unfold GetResources, dict;
    rewrite ?list_to_map_cons, ?list_to_map_nil, ?lookup_insert.
  all: repeat case_decide; subst; try done; try (intros _; in_list).
  all: rewrite lookup_empty; by intros [? ?].
Qed.

(** X12.  The [Gui.addCommand] calls: no name and no class is registered
    twice, every command class is registered, and every class but
    [ShowSnapBar] is registered under its class name, which is also its
    ["Pixmap"]. *)
Theorem registration_table_consistent g :
  NoDup registered_commands.*1 ∧
  NoDup registered_commands.*2 ∧
  (∀ c, c ∈ registered_commands.*2) ∧
  Forall (λ entry,
            entry.2 ≠ ShowSnapBar →
            entry.1 = class_name entry.2 ∧
            GetResources entry.2 g !! "Pixmap" = Some (VStr entry.1))
         registered_commands.
Proof.
  split_and!.
  - unfold registered_commands. cbn [fmap list_fmap fst].
    repeat (apply NoDup_cons; split; [in_trace|]). apply NoDup_nil_2.
  - unfold registered_commands. cbn [fmap list_fmap snd].
    repeat (apply NoDup_cons; split; [in_trace|]). apply NoDup_nil_2.
  - intros c. unfold registered_commands. cbn [fmap list_fmap snd].
    destruct c; in_list.
  - unfold registered_commands.
    repeat (apply Forall_cons; split; [|]); [..|apply Forall_nil].
    all: cbv beta; cbn [fst snd]; try exact I; intros Hc; try done.
    all: split; [reflexivity|vm_compute; reflexivity].
Qed.
End MoreResources.

Section MoreLock.
Context {host : Host} {trk : TrackingMethods} {snp : SnapperHost}.

(** X13.  [Draft_Snap_Lock.Activated]: the command's tracker is started
    for a true status and stopped otherwise, whether or not there is a
    snapper.  Without a snapper one error is printed.  With a snapper,
    ["Lock"] is toggled with [bool(status)] by the base method, and a
    second time by [toggleSnapMode] if [snap_modes] is then set; if it is
    not, the second toggle is replaced by an error. *)
Theorem lock_activated_effects status (g : GuiState) (t : Tracker) :
  let b := bool_of_status status in
  let out := Draft_Snap_Lock_Activated status g t in
  out.2 = (if b then start_tracking t else stop_tracking t) ∧
  (Gui_Snapper g = None →
     out.1 = mkGui None
               (console g ++
                  ["Error: Gui.Snapper is missing. Cannot toggle snap mode.\n"])) ∧
  (∀ sn, Gui_Snapper g = Some sn →
     let sn1 := toggle_snap "Lock" b sn in
     (snap_modes_set sn1 = true →
        out.1 = mkGui (Some (toggle_snap "Lock" b sn1)) (console g)) ∧
     (snap_modes_set sn1 = false →
        out.1 = mkGui (Some sn1)
                  (console g ++
                     ["Error: Gui.Snapper.snap_modes is missing. Cannot check snap state.\n"]))).
Proof.
  intros b out. subst b out. unfold Draft_Snap_Lock_Activated.
  assert (H1 : bool_of_status 1 = true) by done.
  assert (H0 : bool_of_status 0 = false) by done.
  destruct (bool_of_status status) eqn:Hb; cbn [fst snd].
  all: split; [done|]; unfold Activated, toggleSnapMode.
  all: split; [intros Hg; by rewrite !Hg|intros sn Hg].
  all: rewrite Hg; cbn [Gui_Snapper console].
  all: change (snap_name Draft_Snap_Lock) with "Lock".
  all: rewrite ?Hb, ?H1, ?H0; cbv zeta; split; intros ->; done.
Qed.
End MoreLock.

(** ** The theorems on concrete events *)

Import Sample.

(** C8, as stated for every registered command, asks for a complete
    dictionary; the midpoint command, which is registered, has no
    accelerator. *)
Lemma midpoint_resources_incomplete :
  ("Draft_Snap_Midpoint", Draft_Snap_Midpoint) ∈ registered_commands ∧
  GetResources Draft_Snap_Midpoint (mkGui None []) !! "Accel" = None ∧
  ¬ complete_resources (GetResources Draft_Snap_Midpoint (mkGui None [])).
Proof.
  split; [|split].
  - unfold registered_commands. apply list_elem_of_further, list_elem_of_here.
  - vm_compute. reflexivity.
  - intros (_ & [v Hv] & _). vm_compute in Hv. discriminate Hv.
Qed.

(** The digit 5 with a hold point reaches the tracker; without one the
    event is only accepted. *)
Lemma digit_forwarded_only_with_hold_point_witness :
  Call_processNumericInput (pystr_of_string "5")
    ∈ tracker_calls
        (out_trace (keyPressEvent (mkReceiver (AttrObj held) None)
                                  (press 0x35 "5"))) ∧
  keyPressEvent (mkReceiver (AttrObj idle) None) (press 0x35 "5")
    = mkOutcome (AttrObj idle) true [Accept].
Proof.
  split.
  - apply (digit_forwarded_only_with_hold_point held None (press 0x35 "5"));
      [by vm_compute | reflexivity | reflexivity].
  - apply (digit_forwarded_only_with_hold_point idle None (press 0x35 "5"));
      [by vm_compute | reflexivity].
Defined.

(** With ["12"] typed, the digit 5 only goes to the tracker. *)
Lemma direction_locked_on_first_digit_only_witness :
  keyPressEvent (mkReceiver (AttrObj typing) (Some (3, 4, 0))) (press 0x35 "5")
    = mkOutcome (AttrObj (processNumericInput (pystr_of_string "5") typing))
        true [Call (Call_processNumericInput (pystr_of_string "5")); Accept] ∧
  keyPressEvent (mkReceiver (AttrObj held) (Some (3, 4, 0))) (press 0x35 "5")
    = first_digit_outcome (Some (3, 4, 0)) (pystr_of_string "5") held.
Proof.
  split.
  - destruct (direction_locked_on_first_digit_only typing (Some (3, 4, 0))
                (press 0x35 "5")) as [_ Hdigit].
    destruct Hdigit as [_ Hnext]; [by vm_compute | reflexivity..|].
    exact (Hnext _ eq_refl).
  - destruct (direction_locked_on_first_digit_only held (Some (3, 4, 0))
                (press 0x35 "5")) as [_ Hdigit].
    destruct Hdigit as [Hfirst _]; [by vm_compute | reflexivity..|].
    exact (Hfirst eq_refl).
Defined.

(** Enter commits ["12"] and refuses an empty buffer. *)
Lemma commit_iff_input_valid_witness :
  Call_commitInput
    ∈ tracker_calls
        (out_trace (keyPressEvent (mkReceiver (AttrObj typing) None)
                                  (press Key_Enter ""))) ∧
  keyPressEvent (mkReceiver (AttrObj held) None) (press Key_Return "")
    = mkOutcome (AttrObj held) true
        [PrintError [Lit "No valid numeric input. Press Escape to reset or enter a valid number.\n"];
         Accept].
Proof.
  split.
  - apply (commit_iff_input_valid typing None (press Key_Enter ""));
      [by right | reflexivity].
  - apply (commit_iff_input_valid held None (press Key_Return ""));
      [by left | reflexivity].
Defined.

(** Backspace turns ["12"] into ["1"]; on an idle tracker it does
    nothing. *)
Lemma erase_removes_last_character_witness :
  out_tracker (keyPressEvent (mkReceiver (AttrObj typing) None)
                             (press Key_Backspace ""))
    = AttrObj (mkTracker (Some (0, 0, 0)) (Some (pystr_of_string "1")) None tt) ∧
  keyPressEvent (mkReceiver (AttrObj idle) None) (press Key_Delete "")
    = mkOutcome (AttrObj idle) true [Accept].
Proof.
  split.
  - destruct (erase_removes_last_character typing None
                (press Key_Backspace "") (or_introl eq_refl)) as [Hcut _].
    destruct (Hcut (pystr_of_string "12") eq_refl) as [_ ->]; [done|].
    reflexivity.
  - apply (erase_removes_last_character idle None (press Key_Delete ""));
      [by right | by right].
Defined.

(** Q takes the snap point as hold point; Escape clears it. *)
Lemma hold_point_keys_witness :
  keyPressEvent (mkReceiver (AttrObj idle) (Some (3, 4, 0))) (press Key_Q "q")
    = mkOutcome (AttrObj (mkTracker (Some (3, 4, 0)) None None tt)) true
        [Call (Call_setHoldPoint (3, 4, 0));
         PrintMessage [Lit "Hold point set to: "; FmtVector (3, 4, 0);
                       Lit "\n"];
         Accept] ∧
  keyPressEvent (mkReceiver (AttrObj idle) None) (press Key_Q "q")
    = mkOutcome (AttrObj idle) true [Accept] ∧
  out_tracker (keyPressEvent (mkReceiver (AttrObj held) None)
                             (press Key_Escape ""))
    = AttrObj idle.
Proof.
  split_and!.
  - destruct (hold_point_keys idle (Some (3, 4, 0)) (press Key_Q "q"))
      as [HQ _].
    destruct (HQ eq_refl) as [Hset _]. exact (Hset _ eq_refl).
  - destruct (hold_point_keys idle None (press Key_Q "q")) as [HQ _].
    destruct (HQ eq_refl) as [_ Hnone]. exact (Hnone eq_refl).
  - destruct (hold_point_keys held None (press Key_Escape "")) as [_ HEsc].
    rewrite (HEsc eq_refl). reflexivity.
Defined.

(** A decimal point reaches an idle tracker. *)
Lemma separator_always_forwarded_witness :
  keyPressEvent (mkReceiver (AttrObj idle) None) (press Key_Period ".")
    = mkOutcome (AttrObj (mkTracker None (Some (pystr_of_string ".")) None tt))
        true
        [Call (Call_processNumericInput (pystr_of_string ".")); Accept].
Proof.
  rewrite (separator_always_forwarded idle None (press Key_Period "."));
    [reflexivity | by left].
Defined.

(** A digit key that delivers a letter is refused. *)
Lemma non_digit_text_ignored_witness :
  keyPressEvent (mkReceiver (AttrObj held) None) (press Key_0 "x")
    = mkOutcome (AttrObj held) true
        [PrintError [Lit "Invalid numeric input ignored: ";
                     FmtStr (pystr_of_string "x"); Lit "\n"];
         Accept].
Proof.
  apply (non_digit_text_ignored held None (press Key_0 "x"));
    [by vm_compute | reflexivity | reflexivity].
Defined.

(** No snapper and no tracker: nothing happens. *)
Lemma missing_objects_are_noops_witness :
  Activated Draft_Snap_Grid 1 (mkGui None []) = mkGui None [] ∧
  toggleSnapMode "Lock" 1 (mkGui None [])
    = mkGui None ["Error: Gui.Snapper is missing. Cannot toggle snap mode.\n"] ∧
  tracker_calls
    (out_trace (keyPressEvent (mkReceiver AttrNone None) (press Key_Q "q")))
    = [].
Proof.
  destruct (missing_objects_are_noops (host := host) (ops := snap_tracker)
              (snp := snapper)) as (Hact & Htoggle & Hkey).
  split_and!.
  - exact (Hact (mkGui None []) Draft_Snap_Grid 1 eq_refl).
  - exact (Htoggle (mkGui None []) "Lock" 1 eq_refl).
  - apply (Hkey (mkReceiver AttrNone None) (press Key_Q "q")). by right.
Defined.

(** ** The further properties on concrete events *)


(** Escape is accepted once, at the end. *)
Lemma handled_key_accepted_once_witness :
  out_accepted (keyPressEvent (mkReceiver (AttrObj typing) None)
                              (press Key_Escape "")) = true ∧
  ∃ pre,
    (out_trace (keyPressEvent (mkReceiver (AttrObj typing) None)
                              (press Key_Escape "")) = pre ++ [Accept]) ∧
    (Accept ∉ pre) ∧ (Super_keyPressEvent ∉ pre).
Proof.
  apply (handled_key_accepted_once typing None (press Key_Escape "")).
  reflexivity.
Defined.

(** The error for a letter on a digit key comes with no tracker call. *)
Lemma error_means_nothing_done_witness :
  tracker_calls
    (out_trace (keyPressEvent (mkReceiver (AttrObj held) None)
                              (press Key_0 "x"))) = [] ∧
  out_tracker (keyPressEvent (mkReceiver (AttrObj held) None)
                             (press Key_0 "x")) = AttrObj held ∧
  out_accepted (keyPressEvent (mkReceiver (AttrObj held) None)
                              (press Key_0 "x")) = true.
Proof.
  apply (error_means_nothing_done (mkReceiver (AttrObj held) None)
           (press Key_0 "x")
           [Lit "Invalid numeric input ignored: ";
            FmtStr (pystr_of_string "x"); Lit "\n"]).
  apply list_elem_of_here.
Defined.

(** The commit call on Enter comes from Enter, with input in the buffer. *)
Lemma tracker_calls_by_key_witness :
  (key (press Key_Enter "") = Key_Return ∨
   key (press Key_Enter "") = Key_Enter) ∧
  has_input (inputDistance typing) = true.
Proof.
  apply (tracker_calls_by_key typing None (press Key_Enter "")
           Call_commitInput).
  apply list_elem_of_here.
Defined.

(** Backspace on ["12"] assigns ["1"]. *)
Lemma buffer_assigned_only_by_erase_witness :
  (key (press Key_Backspace "") = Key_Backspace ∨
   key (press Key_Backspace "") = Key_Delete) ∧
  ∃ c, inputDistance typing = Some (pystr_of_string "1" ++ [c]).
Proof.
  apply (buffer_assigned_only_by_erase typing None (press Key_Backspace "")).
  apply list_elem_of_here.
Defined.

(** Enter on ["12"] reports the target the sample tracker returns. *)
Lemma commit_reports_target_witness :
  out_tracker (keyPressEvent (mkReceiver (AttrObj typing) None)
                             (press Key_Enter ""))
    = AttrObj (mkTracker (Some (0, 0, 0)) None None tt) ∧
  PrintMessage [Lit "Geometry created at: "; FmtTarget (0, 0, 0); Lit "\n"]
    ∈ out_trace (keyPressEvent (mkReceiver (AttrObj typing) None)
                               (press Key_Enter "")).
Proof.
  destruct (commit_reports_target typing None (press Key_Enter ""))
    as (Ht & _ & Hmsg); [by right | reflexivity |].
  split; [exact Ht|]. apply Hmsg. by exists (0, 0, 0).
Defined.

(** Escape does not look at the text, nor at the snap point. *)
Lemma handler_reads_only_what_the_key_needs_witness :
  keyPressEvent (mkReceiver (AttrObj held) None) (press Key_Escape "zz")
    = keyPressEvent (mkReceiver (AttrObj held) None) (press Key_Escape "") ∧
  keyPressEvent (mkReceiver (AttrObj held) (Some (3, 4, 0)))
                (press Key_Escape "")
    = keyPressEvent (mkReceiver (AttrObj held) None) (press Key_Escape "").
Proof.
  destruct (handler_reads_only_what_the_key_needs
              (mkReceiver (AttrObj held) None) (press Key_Escape ""))
    as (Htext & Hsnap & _).
  split.
  - apply Htext; [reflexivity | reflexivity |].
    cbn. unfold Key_0, Key_9, Key_Escape. lia.
  - apply (Hsnap (Some (3, 4, 0)));
      cbn; unfold Key_0, Key_9, Key_Q, Key_Escape; lia.
Defined.

(** A comma is a decimal point. *)
Lemma alias_keys_agree_witness :
  keyPressEvent (mkReceiver (AttrObj held) None) (press Key_Period ".")
    = keyPressEvent (mkReceiver (AttrObj held) None) (press Key_Comma ",").
Proof.
  apply (alias_keys_agree (mkReceiver (AttrObj held) None)
           (press Key_Period ".") (press Key_Comma ",")).
  right. right. by split.
Defined.

(** Two Backspaces empty ["12"], and Enter is then refused. *)
Lemma erase_keys_shorten_buffer_witness :
  ∃ t',
    tracker (press_all (mkReceiver (AttrObj typing) None)
               [press Key_Backspace ""; press Key_Delete ""]) = AttrObj t' ∧
    inputDistance t' = Some [] ∧
    keyPressEvent (press_all (mkReceiver (AttrObj typing) None)
                     [press Key_Backspace ""; press Key_Delete ""])
                  (press Key_Enter "")
      = mkOutcome (AttrObj t') true
          [PrintError [Lit "No valid numeric input. Press Escape to reset or enter a valid number.\n"];
           Accept].
Proof.
  destruct (erase_keys_shorten_buffer
              [press Key_Backspace ""; press Key_Delete ""] typing None
              (pystr_of_string "12"))
    as (t' & Ht & Hi & Hc).
  - intros t0. reflexivity.
  - apply Forall_cons; split; [by left|].
    apply Forall_cons; split; [by right|]. by apply Forall_nil.
  - reflexivity.
  - exists t'. split; [exact Ht|]. split; [exact Hi|].
    apply Hc; [cbn; lia | by right].
Defined.

(** The grid command. *)
Lemma snap_name_strips_prefix_witness :
  class_name Draft_Snap_Grid
    = String.append "Draft_Snap_" (snap_name Draft_Snap_Grid) ∧
  (snap_name Draft_Snap_Grid = snap_name Draft_Snap_Near → False).
Proof.
  destruct snap_name_strips_prefix as (Hpre & _ & _ & Hinj).
  split; [by apply Hpre|]. intros E. by apply Hinj in E.
Defined.

(** The grid command is checked when ["Grid"] is active. *)
Lemma checkable_reflects_active_snaps_witness :
  GetResources Draft_Snap_Grid (@mkGui snapper (Some ["Grid"]) []) !! "Checkable"
    = Some (VBool true).
Proof.
  apply (checkable_reflects_active_snaps Draft_Snap_Grid
           (@mkGui snapper (Some ["Grid"]) [])); [done|].
  exists ["Grid"]. split; [reflexivity|]. apply list_elem_of_here.
Defined.

(** Activating the grid command on the sample snapper checks it. *)
Lemma activated_then_checked_witness :
  isChecked Draft_Snap_Grid (Activated Draft_Snap_Grid 1 (@mkGui snapper (Some []) []))
    = true ∧
  console (Activated Draft_Snap_Grid 1 (@mkGui snapper (Some []) [])) = [].
Proof.
  apply (activated_then_checked (snp := snapper) Draft_Snap_Grid 1
           (@mkGui snapper (Some []) []) []).
  - intros n s. apply list_elem_of_here.
  - intros n s Hin. apply list_elem_of_filter in Hin as [Hn _]. by apply Hn.
  - reflexivity.
Defined.

(** Without a snapper [toggleSnapMode] prints and creates none. *)
Lemma snapper_presence_kept_witness :
  Gui_Snapper (toggleSnapMode "Lock" 1 (mkGui None [])) = None.
Proof.
  destruct (snapper_presence_kept (snp := snapper) Draft_Snap_Lock "Lock" 1
              (mkGui None [])) as (_ & _ & _ & Hprint & _).
  apply Hprint. discriminate.
Defined.

(** The icon of the grid command does not depend on the snapper. *)
Lemma resources_outside_checkable_witness :
  GetResources Draft_Snap_Grid (@mkGui snapper (Some ["Grid"]) []) !! "Pixmap"
    = GetResources Draft_Snap_Grid (mkGui None []) !! "Pixmap".
Proof.
  destruct (resources_outside_checkable Draft_Snap_Grid
              (@mkGui snapper (Some ["Grid"]) []) (mkGui None [])) as [Hstatic _].
  by apply Hstatic.
Defined.

(** The grid command is registered under its class name. *)
Lemma registration_table_consistent_witness :
  "Draft_Snap_Grid" = class_name Draft_Snap_Grid ∧
  GetResources Draft_Snap_Grid (mkGui None []) !! "Pixmap"
    = Some (VStr "Draft_Snap_Grid").
Proof.
  destruct (registration_table_consistent (snp := snapper) (mkGui None []))
    as (_ & _ & _ & Htable).
  rewrite Forall_forall in Htable.
  apply (Htable ("Draft_Snap_Grid", Draft_Snap_Grid)); [|done].
  do 3 apply list_elem_of_further. apply list_elem_of_here.
Defined.

(** Without a snapper the lock command still starts its tracker. *)
Lemma lock_activated_effects_witness :
  Draft_Snap_Lock_Activated (host := SampleLock.host)
    (trk := SampleLock.tracking) 1 (mkGui None []) SampleLock.stopped
  = (mkGui None ["Error: Gui.Snapper is missing. Cannot toggle snap mode.\n"],
     @mkTracker SampleLock.host None None None true).
Proof.
  destruct (lock_activated_effects (host := SampleLock.host)
              (trk := SampleLock.tracking) (snp := snapper) 1
              (mkGui None []) SampleLock.stopped) as (Ht & Hg & _).
  apply injective_projections; [by apply Hg | exact Ht].
Defined.
